(** * Pulse System Info (heavy): sampling, history and process ranking

    A shallow embedding of [pulse_system_infoheavy.py] and the properties of
    its core: [human_readable_bytes], [SystemData.__init__],
    [SystemData.sample], and the data side of [PulseSystemInfoApp]
    ([update_all], [force_refresh], [update_process_list]).

    Conventions of the embedding:
    - Python [int] is [Z]; Python [float] is idealised as an exact rational
      [Q] (no rounding, no infinities, no NaN);
    - Python [str] is [string] (ASCII code points);
    - a call into [psutil] that may raise is an [option] field of the
      observation of the operating system taken for that call;
    - methods of [SystemData] run in a state-and-exception monad over the
      object's fields, so that the fields seen after a raised exception are
      those at the point of the raise. *)

From Stdlib Require Import ZArith QArith Qabs Qround Lqa.
From Stdlib Require Import List String Ascii Bool Lia.
From Stdlib Require Import Permutation Sorted DecimalString OrdersEx.
From Stdlib Require Import DecimalPos DecimalZ.
Import ListNotations.

Local Open Scope Z_scope.

(** ** Python strings *)

Module PyStr.

(** [str(n)] for an [int]. *)
Definition str (n : Z) : string := NilZero.string_of_int (Z.to_int n).

(** [c.lower()] on one ASCII character. *)
Definition lower_ascii (c : ascii) : ascii :=
  let n := nat_of_ascii c in
  if (65 <=? n)%nat && (n <=? 90)%nat then ascii_of_nat (n + 32) else c.

(** [s.lower()]. *)
Fixpoint lower (s : string) : string :=
  match s with
  | EmptyString => EmptyString
  | String c s' => String (lower_ascii c) (lower s')
  end.

(** [c.isspace()] on one ASCII character: tab to carriage return, the
    four separators 0x1c-0x1f, and the blank. *)
Definition isspace (c : ascii) : bool :=
  let n := nat_of_ascii c in
  ((9 <=? n)%nat && (n <=? 13)%nat) || ((28 <=? n)%nat && (n <=? 32)%nat).

(** [s.lstrip()]. *)
Fixpoint lstrip (s : string) : string :=
  match s with
  | EmptyString => EmptyString
  | String c s' => if isspace c then lstrip s' else s
  end.

(** [s.rstrip()]. *)
Fixpoint rstrip (s : string) : string :=
  match s with
  | EmptyString => EmptyString
  | String c s' =>
      match rstrip s' with
      | EmptyString => if isspace c then EmptyString else String c EmptyString
      | r => String c r
      end
  end.

(** [s.strip()]. *)
Definition strip (s : string) : string := rstrip (lstrip s).

(** [sub in s]. *)
Fixpoint contains (sub s : string) : bool :=
  prefix sub s ||
  match s with
  | EmptyString => false
  | String _ s' => contains sub s'
  end.

(** Truthiness of a string: [bool(s)]. *)
Definition truthy (s : string) : bool :=
  match s with EmptyString => false | _ => true end.

End PyStr.

(** ** Python floats, idealised *)

Module PyFloat.

Definition ltb (a b : Q) : bool :=
  match (a ?= b)%Q with Lt => true | _ => false end.

Definition leb (a b : Q) : bool :=
  match (a ?= b)%Q with Gt => false | _ => true end.

(** Nearest integer, ties to even. *)
Definition round_half_even (q : Q) : Z :=
  let f := Qfloor q in
  match (q - inject_Z f ?= 1 # 2)%Q with
  | Lt => f
  | Gt => f + 1
  | Eq => if Z.even f then f else f + 1
  end.

(** [f"{q:.1f}"]: one digit after the point, correctly rounded. *)
Definition format_1f (q : Q) : string :=
  let m := round_half_even (Qabs q * inject_Z 10)%Q in
  ((if ltb q 0%Q then "-" else EmptyString) ++
   PyStr.str (m / 10) ++ "." ++ PyStr.str (m mod 10))%string.

End PyFloat.

(** ** Module constants *)

Definition APP_UPDATE_INTERVAL_MS_DEFAULT : Z := 1000.
Definition MAX_HISTORY : nat := 120.

(** ** [human_readable_bytes] *)

Definition step : Q := inject_Z 1024.
Definition units : list string :=
  ["B"; "KB"; "MB"; "GB"; "TB"]%string.

(** The [while n >= step and i < len(units) - 1] loop.  [k] is
    [len(units) - 1 - i], so the second guard is [0 < k]. *)
Fixpoint hrb_while (k : nat) (n : Q) (i : nat) : Q * nat :=
  match k with
  | O => (n, i)
  | S k' =>
      if PyFloat.leb step n then hrb_while k' (n / step)%Q (S i) else (n, i)
  end.

(** [human_readable_bytes(n)]; [None] is Python's [None]. *)
Definition human_readable_bytes (n : option Q) : string :=
  match n with
  | None => "0 B"%string
  | Some n =>
      let '(n', i) := hrb_while (List.length units - 1) n 0 in
      (PyFloat.format_1f n' ++ " " ++ nth i units EmptyString)%string
  end.

(** ** Exceptions and the method monad *)

(** The exceptions the modelled code can meet: a failed [psutil] query,
    named by the call, and a division by zero.  All of them are instances of
    Python's [Exception]. *)
Inductive exn : Type :=
| PsutilError (call : string)
| ZeroDivisionError.

Module Method.
Section WithState.
Context {Self : Type}.

(** A method body: from the fields of [self] to an outcome and the
    fields left behind. *)
Definition M (A : Type) : Type := Self -> (exn + A) * Self.

Definition ret {A} (a : A) : M A := fun s => (inr a, s).

Definition bind {A B} (m : M A) (k : A -> M B) : M B :=
  fun s =>
    match m s with
    | (inl e, s') => (inl e, s')
    | (inr a, s') => k a s'
    end.

Definition raise {A} (e : exn) : M A := fun s => (inl e, s).

(** [try: body / except Exception: handler]. *)
Definition try_except {A} (body : M A) (handler : M A) : M A :=
  fun s =>
    match body s with
    | (inl _, s') => handler s'
    | (inr a, s') => (inr a, s')
    end.

Definition get : M Self := fun s => (inr s, s).
Definition modify (f : Self -> Self) : M unit := fun s => (inr tt, f s).

(** A [psutil] query whose observed answer is [o]. *)
Definition query {A} (call : string) (o : option A) : M A :=
  match o with
  | Some a => ret a
  | None => raise (PsutilError call)
  end.

(** [a / b] with a [float] divisor. *)
Definition truediv (a b : Q) : M Q :=
  if Qeq_bool b 0 then raise ZeroDivisionError else ret (a / b)%Q.
End WithState.

Declare Scope method_scope.
Delimit Scope method_scope with method.
Notation "x <- m ;; k" := (bind m (fun x => k))
  (at level 61, m at next level, right associativity) : method_scope.
Notation "m ;; k" := (bind m (fun _ => k))
  (at level 61, right associativity) : method_scope.
End Method.
Import Method.
Local Open Scope method_scope.

(** ** [collections.deque] with [maxlen] *)

Record deque : Type := mk_deque { maxlen : nat; items : list Q }.

(** [deque(maxlen=n)]. *)
Definition deque_new (n : nat) : deque := mk_deque n [].

(** [d.append(x)]: add on the right, then drop from the left while the
    bound is exceeded. *)
Definition deque_append (d : deque) (x : Q) : deque :=
  let l := items d ++ [x] in
  mk_deque (maxlen d) (if (maxlen d <? List.length l)%nat then tl l else l).

(** ** Observations of the operating system *)

(** [psutil.disk_usage(path)]. *)
Record sdiskusage : Type := mk_sdiskusage {
  du_total : Z; du_used : Z; du_free : Z; du_percent : Q
}.

(** [psutil.net_io_counters()]. *)
Record snetio : Type := mk_snetio { bytes_sent : Z; bytes_recv : Z }.

(** What one call of [sample] observes. *)
Record OS : Type := mk_OS {
  time_time : Q;
  cpu_percent : option Q;
  virtual_memory_percent : option Q;
  disk_partitions : option (list string);
  disk_usage : string -> option sdiskusage;
  net_io_counters : option snetio
}.

(** ** [SystemData] *)

Record SystemData : Type := mk_SystemData {
  last_net : snetio;
  last_time : Q;
  cpu_hist : deque;
  ram_hist : deque;
  disk_hist : deque;
  net_sent_hist : deque;
  net_recv_hist : deque
}.

(** The value returned by [sample]. *)
Record snapshot : Type := mk_snapshot {
  s_cpu : Q; s_ram : Q; s_disk_percent : Q; s_net_sent : Q; s_net_recv : Q
}.

Definition set_last_net (v : snetio) (d : SystemData) : SystemData :=
  mk_SystemData v (last_time d) (cpu_hist d) (ram_hist d) (disk_hist d)
                (net_sent_hist d) (net_recv_hist d).
Definition set_last_time (v : Q) (d : SystemData) : SystemData :=
  mk_SystemData (last_net d) v (cpu_hist d) (ram_hist d) (disk_hist d)
                (net_sent_hist d) (net_recv_hist d).
Definition append_cpu_hist (v : Q) (d : SystemData) : SystemData :=
  mk_SystemData (last_net d) (last_time d) (deque_append (cpu_hist d) v)
                (ram_hist d) (disk_hist d) (net_sent_hist d) (net_recv_hist d).
Definition append_ram_hist (v : Q) (d : SystemData) : SystemData :=
  mk_SystemData (last_net d) (last_time d) (cpu_hist d)
                (deque_append (ram_hist d) v) (disk_hist d)
                (net_sent_hist d) (net_recv_hist d).
Definition append_disk_hist (v : Q) (d : SystemData) : SystemData :=
  mk_SystemData (last_net d) (last_time d) (cpu_hist d) (ram_hist d)
                (deque_append (disk_hist d) v)
                (net_sent_hist d) (net_recv_hist d).
Definition append_net_sent_hist (v : Q) (d : SystemData) : SystemData :=
  mk_SystemData (last_net d) (last_time d) (cpu_hist d) (ram_hist d)
                (disk_hist d) (deque_append (net_sent_hist d) v)
                (net_recv_hist d).
Definition append_net_recv_hist (v : Q) (d : SystemData) : SystemData :=
  mk_SystemData (last_net d) (last_time d) (cpu_hist d) (ram_hist d)
                (disk_hist d) (net_sent_hist d)
                (deque_append (net_recv_hist d) v).

(** The body of [for _ in range(MAX_HISTORY)] in [__init__]. *)
Definition prefill_step (d : SystemData) : SystemData :=
  append_net_recv_hist 0 (append_net_sent_hist 0 (append_disk_hist 0
    (append_ram_hist 0 (append_cpu_hist 0 d)))).

(** [SystemData.__init__]. *)
Definition SystemData_init (os : OS) : exn + SystemData :=
  match net_io_counters os with
  | None => inl (PsutilError "net_io_counters")
  | Some net =>
      inr (Nat.iter MAX_HISTORY prefill_step
             (mk_SystemData net (time_time os)
                (deque_new MAX_HISTORY) (deque_new MAX_HISTORY)
                (deque_new MAX_HISTORY) (deque_new MAX_HISTORY)
                (deque_new MAX_HISTORY)))
  end.

(** The [for p in parts] loop of [sample]; the accumulator is
    [(total_used, total_total)]. *)
Fixpoint sum_partitions (os : OS) (parts : list string) (acc : Z * Z)
  : M (Self := SystemData) (Z * Z) :=
  match parts with
  | [] => ret acc
  | p :: rest =>
      acc' <- try_except
                (u <- query "disk_usage" (disk_usage os p) ;;
                 ret (fst acc + du_used u, snd acc + du_total u))
                (ret acc) ;;
      sum_partitions os rest acc'
  end.

(** The disk block of [sample]: both nested [try] statements. *)
Definition sample_disk_percent (os : OS) : M (Self := SystemData) Q :=
  try_except
    (parts <- query "disk_partitions" (disk_partitions os) ;;
     tot <- sum_partitions os parts (0, 0) ;;
     let '(total_used, total_total) := tot in
     if 0 <? total_total then
       r <- truediv (inject_Z total_used) (inject_Z total_total) ;;
       ret (r * inject_Z 100)%Q
     else ret 0%Q)
    (try_except
       (u <- query "disk_usage" (disk_usage os "/") ;; ret (du_percent u))
       (ret 0%Q)).

(** [now - self.last_time if now - self.last_time > 0 else 1.0]. *)
Definition elapsed_of (now last : Q) : Q :=
  if PyFloat.ltb 0 (now - last) then (now - last)%Q else 1%Q.

(** [SystemData.sample]. *)
Definition sample (os : OS) : M (Self := SystemData) snapshot :=
  let now := time_time os in
  cpu <- query "cpu_percent" (cpu_percent os) ;;
  ram <- query "virtual_memory" (virtual_memory_percent os) ;;
  disk_percent <- sample_disk_percent os ;;
  net <- query "net_io_counters" (net_io_counters os) ;;
  self <- get ;;
  let elapsed := elapsed_of now (last_time self) in
  sent_rate <- truediv (inject_Z (bytes_sent net - bytes_sent (last_net self)))
                       elapsed ;;
  recv_rate <- truediv (inject_Z (bytes_recv net - bytes_recv (last_net self)))
                       elapsed ;;
  modify (set_last_net net) ;;
  modify (set_last_time now) ;;
  modify (append_cpu_hist cpu) ;;
  modify (append_ram_hist ram) ;;
  modify (append_disk_hist disk_percent) ;;
  modify (append_net_sent_hist sent_rate) ;;
  modify (append_net_recv_hist recv_rate) ;;
  ret (mk_snapshot cpu ram disk_percent sent_rate recv_rate).

(** ** The data side of [PulseSystemInfoApp] *)

(** [update_all]: one [sample].  What follows it in the source (a second
    read of the memory, the partition list, the process list, the curves)
    feeds the widgets and assigns no field of [SystemData]; it is not
    modelled. *)
Definition update_all (os : OS) : M (Self := SystemData) snapshot :=
  s <- sample os ;;
  ret s.

(** [force_refresh]: [self.data.sample(); self.update_all()].  Each of the
    two calls takes its own observation of the operating system. *)
Definition force_refresh (os1 os2 : OS) : M (Self := SystemData) snapshot :=
  sample os1 ;;
  update_all os2.

(** [apply_settings]: [self.update_all()] after the timer is reprogrammed. *)
Definition apply_settings (os : OS) : M (Self := SystemData) snapshot :=
  update_all os.

(** ** [list.sort] and slices *)

Section StableSort.
Context {A K : Type} (key : A -> K) (lt : K -> K -> bool).

(** Insert [x], which stood before every element of [l], into the sorted
    [l]: it passes exactly the elements whose key is strictly smaller. *)
Fixpoint insert_sorted (x : A) (l : list A) : list A :=
  match l with
  | [] => [x]
  | y :: l' =>
      if lt (key y) (key x) then y :: insert_sorted x l' else x :: y :: l'
  end.

Definition stable_sort (l : list A) : list A :=
  fold_right insert_sorted [] l.

(** An element is in place before a later one when the later one's key is
    not strictly smaller. *)
Definition not_after (a b : A) : Prop := lt (key b) (key a) = false.
End StableSort.

(** [l.sort(key=key, reverse=reverse)]: Python's sort is stable, compares
    keys with [<] only, and with [reverse=True] sorts as if each comparison
    were reversed. *)
Definition list_sort {A K : Type} (key : A -> K) (lt : K -> K -> bool)
    (reverse : bool) (l : list A) : list A :=
  stable_sort key (if reverse then fun a b => lt b a else lt) l.

(** [l[:n]], for any [int] [n]: a negative [n] counts from the right. *)
Definition slice_to {A : Type} (l : list A) (n : Z) : list A :=
  if n <? 0 then firstn (Z.to_nat (Z.of_nat (List.length l) + n)) l
  else firstn (Z.to_nat n) l.

(** ** [update_process_list] *)

(** The two exceptions a read of a process can raise, and that the
    enumeration loop catches. *)
Inductive proc_error : Type := NoSuchProcess | AccessDenied.

(** One process as [psutil.process_iter(['pid','name'])] yields it and as
    its two reads answer. *)
Record os_process : Type := mk_os_process {
  info_pid : Z;
  info_name : option string;
  p_cpu_percent : proc_error + Q;
  p_memory_percent : proc_error + Q
}.

(** The tuple [(name, pid, cpu, mem, p)]; the handle [p] takes no part in
    sorting, filtering or truncation and is left out. *)
Record proc_tuple : Type := mk_proc_tuple {
  t_name : string; t_pid : Z; t_cpu : Q; t_mem : Q
}.

(** [x or y] on strings. *)
Definition str_or (x y : string) : string :=
  if PyStr.truthy x then x else y.

(** The body of the enumeration loop: [Some] is the appended tuple, [None]
    is [continue]. *)
Definition read_process (p : os_process) : option proc_tuple :=
  let pid := info_pid p in
  let name := str_or (match info_name p with Some n => n | None => EmptyString end)
                     (PyStr.str pid) in
  match p_cpu_percent p with
  | inl _ => None
  | inr cpu =>
      match p_memory_percent p with
      | inl _ => None
      | inr mem => Some (mk_proc_tuple name pid cpu mem)
      end
  end.

Fixpoint enumerate_processes (ps : list os_process) : list proc_tuple :=
  match ps with
  | [] => []
  | p :: rest =>
      match read_process p with
      | Some t => t :: enumerate_processes rest
      | None => enumerate_processes rest
      end
  end.

Definition string_ltb (a b : string) : bool :=
  match String.compare a b with Lt => true | _ => false end.

(** The [if s=="CPU" ... elif ... else] chain. *)
Definition sort_procs (s : string) (procs : list proc_tuple)
  : list proc_tuple :=
  if String.eqb s "CPU" then list_sort t_cpu PyFloat.ltb true procs
  else if String.eqb s "RAM" then list_sort t_mem PyFloat.ltb true procs
  else if String.eqb s "PID" then list_sort t_pid Z.ltb false procs
  else list_sort (fun t => PyStr.lower (str_or (t_name t) EmptyString)) string_ltb
                 false procs.

(** The condition of the list comprehension:
    [q in (t[0] or '').lower() or q==str(t[1])]. *)
Definition keep (q : string) (t : proc_tuple) : bool :=
  PyStr.contains q (PyStr.lower (str_or (t_name t) EmptyString)) ||
  String.eqb q (PyStr.str (t_pid t)).

(** [update_process_list], up to the list that is handed to the widgets:
    [text] is [self.search_input.text()], [top] is [self.top_spin.value()],
    [s] is [self.sort_combo.currentText()]. *)
Definition update_process_list (text : string) (top : Z) (s : string)
    (ps : list os_process) : list proc_tuple :=
  let q := PyStr.lower (PyStr.strip text) in
  let top_n := top in
  let procs := enumerate_processes ps in
  let procs := sort_procs s procs in
  let procs := if PyStr.truthy q then filter (keep q) procs else procs in
  slice_to procs top_n.

(** ** Vocabulary of the properties *)

(** A [SystemData] as [__init__] builds it: every history bounded by
    [MAX_HISTORY]. *)
Definition well_formed (d : SystemData) : Prop :=
  maxlen (cpu_hist d) = MAX_HISTORY /\
  maxlen (ram_hist d) = MAX_HISTORY /\
  maxlen (disk_hist d) = MAX_HISTORY /\
  maxlen (net_sent_hist d) = MAX_HISTORY /\
  maxlen (net_recv_hist d) = MAX_HISTORY.

(** Every history holds exactly [MAX_HISTORY] values. *)
Definition full_histories (d : SystemData) : Prop :=
  List.length (items (cpu_hist d)) = MAX_HISTORY /\
  List.length (items (ram_hist d)) = MAX_HISTORY /\
  List.length (items (disk_hist d)) = MAX_HISTORY /\
  List.length (items (net_sent_hist d)) = MAX_HISTORY /\
  List.length (items (net_recv_hist d)) = MAX_HISTORY.

(** What holds of the fields between any two steps of the application. *)
Definition invariant (d : SystemData) : Prop :=
  well_formed d /\ full_histories d.

(** The callers of [sample] in the application, each with the
    observations its calls of [sample] take. *)
Inductive event : Type :=
| Tick (os : OS)
| RefreshNow (os1 os2 : OS)
| Apply (os : OS).

(** The fields after one event, whether its handler returned or raised. *)
Definition handle (d : SystemData) (e : event) : SystemData :=
  match e with
  | Tick os => snd (update_all os d)
  | RefreshNow os1 os2 => snd (force_refresh os1 os2 d)
  | Apply os => snd (apply_settings os d)
  end.

Definition run (es : list event) (d : SystemData) : SystemData :=
  fold_left handle es d.

(** The usages of the partitions that answer, in enumeration order. *)
Definition readable_usages (os : OS) (parts : list string)
  : list sdiskusage :=
  flat_map (fun p => match disk_usage os p with
                     | Some u => [u]
                     | None => []
                     end) parts.

Definition sum_Z (l : list Z) : Z := fold_right Z.add 0 l.

(** [sum(used) / sum(total) * 100] over [us], and [0.0] when the total is
    not positive. *)
Definition aggregate_percent (us : list sdiskusage) : Q :=
  let total_used := sum_Z (map du_used us) in
  let total_total := sum_Z (map du_total us) in
  if 0 <? total_total
  then (inject_Z total_used / inject_Z total_total * inject_Z 100)%Q
  else 0%Q.

(** [sub] occurs in [s]. *)
Definition substring_of (sub s : string) : Prop :=
  exists a b : string, s = (a ++ sub ++ b)%string.

(** The filter as the normalised query [q] applies it. *)
Definition kept_by (q : string) (t : proc_tuple) : Prop :=
  q = EmptyString \/
  substring_of q (PyStr.lower (t_name t)) \/
  q = PyStr.str (t_pid t).

(** The filter read on the text as typed: case-insensitive containment in
    the name, or the text being the decimal form of the PID. *)
Definition kept_by_text (text : string) (t : proc_tuple) : Prop :=
  substring_of (PyStr.lower text) (PyStr.lower (t_name t)) \/
  text = PyStr.str (t_pid t).

(** The order each choice of the sort box asks for, between an element and
    a later one. *)
Definition in_order (s : string) (a b : proc_tuple) : Prop :=
  if String.eqb s "CPU" then (t_cpu b <= t_cpu a)%Q
  else if String.eqb s "RAM" then (t_mem b <= t_mem a)%Q
  else if String.eqb s "PID" then t_pid a <= t_pid b
  else String.compare (PyStr.lower (t_name a)) (PyStr.lower (t_name b)) <> Gt.

(** [a] and [b] have equal sort keys. *)
Definition same_key (s : string) (a b : proc_tuple) : bool :=
  if String.eqb s "CPU" then Qeq_bool (t_cpu a) (t_cpu b)
  else if String.eqb s "RAM" then Qeq_bool (t_mem a) (t_mem b)
  else if String.eqb s "PID" then Z.eqb (t_pid a) (t_pid b)
  else String.eqb (PyStr.lower (t_name a)) (PyStr.lower (t_name b)).

(** [out] is [l] sorted for [s], ties in the order of [l]. *)
Definition stably_sorted (s : string) (l out : list proc_tuple) : Prop :=
  Permutation l out /\
  Sorted (in_order s) out /\
  forall t, filter (same_key s t) out = filter (same_key s t) l.

(** What the disk block of [sample] evaluates to. *)
Definition disk_percent_value (os : OS) : Q :=
  match disk_partitions os with
  | Some parts => aggregate_percent (readable_usages os parts)
  | None =>
      match disk_usage os "/" with
      | Some u => du_percent u
      | None => 0%Q
      end
  end.

(** [(current - previous) / elapsed] for one counter. *)
Definition rate_value (current previous : Z) (now last : Q) : Q :=
  (inject_Z (current - previous) / elapsed_of now last)%Q.

(** The snapshot of a sample whose three mandatory queries answered. *)
Definition snapshot_value (os : OS) (d : SystemData) (cpu ram : Q)
    (net : snetio) : snapshot :=
  mk_snapshot cpu ram (disk_percent_value os)
    (rate_value (bytes_sent net) (bytes_sent (last_net d))
                (time_time os) (last_time d))
    (rate_value (bytes_recv net) (bytes_recv (last_net d))
                (time_time os) (last_time d)).

(** The fields once [snap] is recorded. *)
Definition record_snapshot (os : OS) (net : snetio) (snap : snapshot)
    (d : SystemData) : SystemData :=
  append_net_recv_hist (s_net_recv snap)
    (append_net_sent_hist (s_net_sent snap)
      (append_disk_hist (s_disk_percent snap)
        (append_ram_hist (s_ram snap)
          (append_cpu_hist (s_cpu snap)
            (set_last_time (time_time os) (set_last_net net d)))))).

(** [1024 ** m], the size of the unit at index [m]. *)
Definition scale (m : nat) : Q := inject_Z (1024 ^ Z.of_nat m).

(** The three records of the ranking example, as the operating system
    yields them, and a list with a process whose PID and another whose name
    carry the digit 3. *)
Definition abc_processes : list os_process :=
  [mk_os_process 1 (Some "A"%string) (inr (inject_Z 10)) (inr (inject_Z 5));
   mk_os_process 2 (Some "B"%string) (inr (inject_Z 50)) (inr (inject_Z 5));
   mk_os_process 3 (Some "C"%string) (inr (inject_Z 50)) (inr (inject_Z 1))].

Definition rec_A : proc_tuple :=
  mk_proc_tuple "A" 1 (inject_Z 10) (inject_Z 5).
Definition rec_B : proc_tuple :=
  mk_proc_tuple "B" 2 (inject_Z 50) (inject_Z 5).
Definition rec_C : proc_tuple :=
  mk_proc_tuple "C" 3 (inject_Z 50) (inject_Z 1).

Definition digit_processes : list os_process :=
  [mk_os_process 1 (Some "abc"%string) (inr 0%Q) (inr 0%Q);
   mk_os_process 2 (Some "xy3"%string) (inr 0%Q) (inr 0%Q);
   mk_os_process 3 (Some "foo"%string) (inr 0%Q) (inr 0%Q)].

Definition rec_abc : proc_tuple := mk_proc_tuple "abc" 1 0 0.
Definition rec_xy3 : proc_tuple := mk_proc_tuple "xy3" 2 0 0.
Definition rec_foo : proc_tuple := mk_proc_tuple "foo" 3 0 0.

(** ** Concrete observations *)

(** Only the root answers [disk_usage], at 42 percent. *)
Definition root_only (p : string) : option sdiskusage :=
  if String.eqb p "/" then Some (mk_sdiskusage 100 42 58 (inject_Z 42))
  else None.

(** The observation at construction: time 100, counters at 1000 and 2000. *)
Definition os_boot : OS :=
  mk_OS (inject_Z 100) (Some 0%Q) (Some (inject_Z 30)) (Some ["/"%string])
        root_only (Some (mk_snetio 1000 2000)).

(** One time unit later the sent counter has restarted from zero. *)
Definition os_reset : OS :=
  mk_OS (inject_Z 101) (Some (inject_Z 10)) (Some (inject_Z 30))
        (Some ["/"%string]) root_only (Some (mk_snetio 0 2500)).

(** A further observation, two time units after construction. *)
Definition os_later : OS :=
  mk_OS (inject_Z 102) (Some (inject_Z 20)) (Some (inject_Z 31))
        (Some ["/"%string]) root_only (Some (mk_snetio 300 2600)).

(** The clock has not advanced since construction. *)
Definition os_same_instant : OS :=
  mk_OS (inject_Z 100) (Some (inject_Z 10)) (Some (inject_Z 30))
        (Some ["/"%string]) root_only (Some (mk_snetio 1500 2000)).

(** The only enumerated partition does not answer; the root would. *)
Definition os_unreadable : OS :=
  mk_OS (inject_Z 101) (Some (inject_Z 10)) (Some (inject_Z 30))
        (Some ["/mnt/data"%string]) root_only (Some (mk_snetio 1000 2000)).

(** The processor load cannot be read. *)
Definition os_no_cpu : OS :=
  mk_OS (inject_Z 101) None (Some (inject_Z 30))
        (Some ["/"%string]) root_only (Some (mk_snetio 1200 2500)).

(** The fields [__init__] builds from [os_boot]. *)
Definition boot_state : SystemData :=
  Eval vm_compute in
    Nat.iter MAX_HISTORY prefill_step
      (mk_SystemData (mk_snetio 1000 2000) (inject_Z 100)
         (deque_new MAX_HISTORY) (deque_new MAX_HISTORY)
         (deque_new MAX_HISTORY) (deque_new MAX_HISTORY)
         (deque_new MAX_HISTORY)).

(** ** What the window shows *)

(** [format_bytes_per_sec]. *)
Definition format_bytes_per_sec (bps : Q) : string :=
  if PyFloat.ltb bps (inject_Z 1024)
  then (PyFloat.format_1f bps ++ " B/s")%string
  else if PyFloat.ltb (bps / inject_Z 1024)%Q (inject_Z 1024)
  then (PyFloat.format_1f (bps / inject_Z 1024)%Q ++ " KB/s")%string
  else (PyFloat.format_1f (bps / inject_Z 1024 / inject_Z 1024)%Q
        ++ " MB/s")%string.

(** [int(x)] for a [float]: the fraction is dropped, toward zero. *)
Definition int_of_float (x : Q) : Z :=
  if PyFloat.ltb x 0%Q then Qceiling x else Qfloor x.

(** [min(100, x)]: the first argument stays unless the second is smaller. *)
Definition min_100 (x : Q) : Q :=
  if PyFloat.ltb x (inject_Z 100) then x else inject_Z 100.

(** [int(min(100, x))], the value given to every progress bar. *)
Definition bar_value (x : Q) : Z := int_of_float (min_100 x).






(** What [ProcessItemWidget.__init__] puts into its label and bars. *)
Record process_item_widget : Type := mk_process_item_widget {
  nameLabel : string;
  cpuBar : Z; cpuBar_format : string;
  memBar : Z; memBar_format : string
}.

Definition ProcessItemWidget (name : string) (pid : Z) (cpu mem : Q)
  : process_item_widget :=
  mk_process_item_widget
    (name ++ " (PID " ++ PyStr.str pid ++ ")")%string
    (bar_value cpu) ("CPU: " ++ PyFloat.format_1f cpu ++ "%")%string
    (bar_value mem) ("RAM: " ++ PyFloat.format_1f mem ++ "%")%string.

(** The rows [update_process_list] leaves in the process list. *)
Definition process_rows (text : string) (top : Z) (s : string)
    (ps : list os_process) : list process_item_widget :=
  map (fun t => ProcessItemWidget (t_name t) (t_pid t) (t_cpu t) (t_mem t))
      (update_process_list text top s ps).

(** [range(a, b)]. *)
Definition py_range (a b : Z) : list Z :=
  map (fun i => a + Z.of_nat i) (seq 0 (Z.to_nat (b - a))).

(** The arrays [update_all] hands to the five curves. *)
Record curves : Type := mk_curves {
  x_axis : list Z;
  cpu_curve : list Q; ram_curve : list Q; disk_curve : list Q;
  net_sent_curve : list Q; net_recv_curve : list Q
}.

Definition update_all_curves (d : SystemData) : curves :=
  mk_curves
    (py_range (- Z.of_nat (List.length (items (cpu_hist d))) + 1) 1)
    (items (cpu_hist d)) (items (ram_hist d)) (items (disk_hist d))
    (map (fun v => (v / inject_Z 1024)%Q) (items (net_sent_hist d)))
    (map (fun v => (v / inject_Z 1024)%Q) (items (net_recv_hist d))).

(** ** Reading a PID back from a label *)

(** [s.split(sep)] for a non-empty [sep]; [skip] counts the characters of
    a separator just found that are still to be passed. *)
Fixpoint split_from (sep s : string) (skip : nat) : list string :=
  match s with
  | EmptyString => [EmptyString]
  | String c s' =>
      match skip with
      | Datatypes.S k => split_from sep s' k
      | O =>
          if prefix sep s
          then EmptyString :: split_from sep s' (String.length sep - 1)
          else match split_from sep s' 0 with
               | part :: parts => String c part :: parts
               | [] => [String c EmptyString]
               end
      end
  end.

Definition str_split (sep s : string) : list string := split_from sep s 0.

(** The value of a decimal digit. *)
Definition digit_value (c : ascii) : option Z :=
  let n := nat_of_ascii c in
  if (48 <=? n)%nat && (n <=? 57)%nat then Some (Z.of_nat n - 48) else None.

(** The digits of an [int] literal given to [int()]: at least one digit,
    single underscores between digits only. *)
Fixpoint parse_digits (s : string) (acc : Z) (after_digit : bool)
  : option Z :=
  match s with
  | EmptyString => if after_digit then Some acc else None
  | String c s' =>
      match digit_value c with
      | Some v => parse_digits s' (10 * acc + v) true
      | None =>
          if Ascii.eqb c "_" && after_digit then parse_digits s' acc false
          else None
      end
  end.

(** [int(s)] for a string; [None] is [ValueError]. *)
Definition int_of_str (s : string) : option Z :=
  match PyStr.strip s with
  | String "+" r => parse_digits r 0 false
  | String "-" r => option_map Z.opp (parse_digits r 0 false)
  | t => parse_digits t 0 false
  end.

(** The PID [on_process_double_click] hands to [psutil.Process]; [None]
    when the handler returns early or the parse raises (an [IndexError] or
    a [ValueError], both swallowed by [except Exception: pass]). *)
Definition clicked_pid (text : string) : option Z :=
  if PyStr.contains "(PID" text then
    match nth_error (str_split "PID" text) 1 with
    | None => None
    | Some seg =>
        match str_split ")" seg with
        | first :: _ => int_of_str first
        | [] => None
        end
    end
  else None.

(** ** More vocabulary *)

(** The last [n] elements of [l]. *)
Definition lastn {A : Type} (n : nat) (l : list A) : list A :=
  skipn (List.length l - n) l.

(** The three queries [sample] cannot do without all answer. *)
Definition answers (os : OS) : bool :=
  match cpu_percent os, virtual_memory_percent os, net_io_counters os with
  | Some _, Some _, Some _ => true
  | _, _, _ => false
  end.

(** The processor and memory shares an observation carries. *)
Definition cpu_of (os : OS) : Q :=
  match cpu_percent os with Some v => v | None => 0%Q end.
Definition ram_of (os : OS) : Q :=
  match virtual_memory_percent os with Some v => v | None => 0%Q end.

(** Both reads of a process answer. *)
Definition readable (p : os_process) : bool :=
  match p_cpu_percent p, p_memory_percent p with
  | inr _, inr _ => true
  | _, _ => false
  end.

(** Every character of [s] passes [test]. *)
Fixpoint every (test : ascii -> bool) (s : string) : bool :=
  match s with
  | EmptyString => true
  | String c s' => test c && every test s'
  end.

(** A decimal digit or the minus sign: the characters of [str(n)]. *)
Definition numeral_char (c : ascii) : bool :=
  match digit_value c with
  | Some _ => true
  | None => Ascii.eqb c "-"
  end.

(** * Properties *)

(** ** Deques *)

Lemma deque_append_maxlen d x : maxlen (deque_append d x) = maxlen d.
Proof. reflexivity. Qed.

Lemma deque_append_full d x :
  List.length (items d) = maxlen d ->
  List.length (items (deque_append d x)) = maxlen d.
Proof.
  intros Hlen. unfold deque_append. cbn [items maxlen].
  assert (Hl : List.length (items d ++ [x]) = Datatypes.S (maxlen d))
    by (rewrite length_app; cbn; lia).
  rewrite Hl.
  replace (maxlen d <? Datatypes.S (maxlen d))%nat with true
    by (symmetry; apply Nat.ltb_lt; lia).
  destruct (items d ++ [x]) as [|a r] eqn:E; cbn in *; lia.
Qed.

Lemma deque_append_rightmost d x :
  (0 < maxlen d)%nat ->
  exists l, items (deque_append d x) = l ++ [x].
Proof.
  intros Hpos. unfold deque_append. cbn [items maxlen].
  destruct (items d) as [|a r] eqn:E.
  - destruct (maxlen d) as [|n]; [lia|]. exists []. reflexivity.
  - destruct (maxlen d <? List.length ((a :: r) ++ [x]))%nat.
    + exists r. reflexivity.
    + exists (a :: r). reflexivity.
Qed.

Lemma deque_append_evicts d x :
  List.length (items d) = maxlen d -> (0 < maxlen d)%nat ->
  items (deque_append d x) = tl (items d) ++ [x].
Proof.
  intros Hlen Hpos. unfold deque_append. cbn [items maxlen].
  replace (maxlen d <? List.length (items d ++ [x]))%nat with true
    by (symmetry; apply Nat.ltb_lt; rewrite length_app; cbn; lia).
  destruct (items d) as [|a r]; [cbn in Hlen; lia | reflexivity].
Qed.

(** ** Running [sample] *)

Lemma Qeq_bool_false x y : ~ (x == y)%Q -> Qeq_bool x y = false.
Proof.
  intros Hne. destruct (Qeq_bool x y) eqn:E; [|reflexivity].
  apply Qeq_bool_eq in E. contradiction.
Qed.

Lemma inject_Z_nonzero z : 0 < z -> Qeq_bool (inject_Z z) 0 = false.
Proof.
  intros Hz. apply Qeq_bool_false. unfold Qeq. cbn. lia.
Qed.

Lemma elapsed_of_pos now last : (0 < elapsed_of now last)%Q.
Proof.
  unfold elapsed_of, PyFloat.ltb.
  destruct (Qcompare_spec 0 (now - last)) as [H|H|H];
    try reflexivity; exact H.
Qed.

Lemma elapsed_of_nonzero now last : Qeq_bool (elapsed_of now last) 0 = false.
Proof.
  apply Qeq_bool_false. intros H.
  pose proof (elapsed_of_pos now last) as Hpos.
  rewrite H in Hpos. exact (Qlt_irrefl 0 Hpos).
Qed.

Lemma elapsed_of_clamped now last :
  (now - last <= 0)%Q -> elapsed_of now last = 1%Q.
Proof.
  intros Hle. unfold elapsed_of, PyFloat.ltb.
  destruct (Qcompare_spec 0 (now - last)) as [H|H|H]; try reflexivity.
  exfalso. exact (Qlt_not_le _ _ H Hle).
Qed.

Lemma sum_partitions_run os parts acc (d : SystemData) :
  sum_partitions os parts acc d =
  (inr (fst acc + sum_Z (map du_used (readable_usages os parts)),
        snd acc + sum_Z (map du_total (readable_usages os parts))), d).
Proof.
  revert acc. induction parts as [|p rest IH]; intros [tu tt].
  - cbn. unfold ret. now rewrite !Z.add_0_r.
  - cbn [sum_partitions]. unfold bind, try_except, query at 1.
    destruct (disk_usage os p) as [u|] eqn:E.
    + cbn. rewrite IH. cbn. rewrite E. cbn. now rewrite !Z.add_assoc.
    + cbn. rewrite IH. cbn. rewrite E. cbn. reflexivity.
Qed.

Lemma sample_disk_percent_run os (d : SystemData) :
  sample_disk_percent os d = (inr (disk_percent_value os), d).
Proof.
  unfold sample_disk_percent, disk_percent_value, try_except, bind.
  destruct (disk_partitions os) as [parts|]; cbn.
  - rewrite sum_partitions_run. cbn. unfold aggregate_percent.
    destruct (0 <? sum_Z (map du_total (readable_usages os parts))) eqn:E.
    + unfold truediv. rewrite inject_Z_nonzero by (apply Z.ltb_lt; exact E).
      reflexivity.
    + reflexivity.
  - destruct (disk_usage os "/"); reflexivity.
Qed.

Lemma sample_run os d :
  sample os d =
  match cpu_percent os, virtual_memory_percent os, net_io_counters os with
  | None, _, _ => (inl (PsutilError "cpu_percent"), d)
  | Some _, None, _ => (inl (PsutilError "virtual_memory"), d)
  | Some _, Some _, None => (inl (PsutilError "net_io_counters"), d)
  | Some cpu, Some ram, Some net =>
      let snap := snapshot_value os d cpu ram net in
      (inr snap, record_snapshot os net snap d)
  end.
Proof.
  unfold sample.
  destruct (cpu_percent os) as [cpu|]; [|reflexivity].
  destruct (virtual_memory_percent os) as [ram|]; [|reflexivity].
  cbn [query]. unfold bind at 1. unfold ret at 1.
  unfold bind at 1. unfold ret at 1.
  unfold bind at 1. rewrite sample_disk_percent_run.
  destruct (net_io_counters os) as [net|]; [|reflexivity].
  cbn [query]. unfold bind, ret, get, modify, truediv.
  rewrite !elapsed_of_nonzero. reflexivity.
Qed.

(** ** The history invariant *)

Ltac split_invariant :=
  unfold invariant, well_formed, full_histories in *;
  cbn [cpu_hist ram_hist disk_hist net_sent_hist net_recv_hist
       last_net last_time] in *.

Lemma set_last_net_invariant v d : invariant d -> invariant (set_last_net v d).
Proof. unfold set_last_net. split_invariant. tauto. Qed.

Lemma set_last_time_invariant v d :
  invariant d -> invariant (set_last_time v d).
Proof. unfold set_last_time. split_invariant. tauto. Qed.

Ltac append_invariant :=
  split_invariant;
  rewrite ?deque_append_maxlen;
  intuition (try assumption);
  match goal with
  | [ Hm : maxlen ?h = MAX_HISTORY |- List.length (items (deque_append ?h _)) = _ ] =>
      rewrite <- Hm; apply deque_append_full; congruence
  end.

Lemma append_cpu_hist_invariant v d :
  invariant d -> invariant (append_cpu_hist v d).
Proof. unfold append_cpu_hist. append_invariant. Qed.

Lemma append_ram_hist_invariant v d :
  invariant d -> invariant (append_ram_hist v d).
Proof. unfold append_ram_hist. append_invariant. Qed.

Lemma append_disk_hist_invariant v d :
  invariant d -> invariant (append_disk_hist v d).
Proof. unfold append_disk_hist. append_invariant. Qed.

Lemma append_net_sent_hist_invariant v d :
  invariant d -> invariant (append_net_sent_hist v d).
Proof. unfold append_net_sent_hist. append_invariant. Qed.

Lemma append_net_recv_hist_invariant v d :
  invariant d -> invariant (append_net_recv_hist v d).
Proof. unfold append_net_recv_hist. append_invariant. Qed.

Create HintDb pulse_inv.
#[local] Hint Resolve set_last_net_invariant set_last_time_invariant
  append_cpu_hist_invariant append_ram_hist_invariant
  append_disk_hist_invariant append_net_sent_hist_invariant
  append_net_recv_hist_invariant : pulse_inv.

Lemma record_snapshot_invariant os net snap d :
  invariant d -> invariant (record_snapshot os net snap d).
Proof. intros H. unfold record_snapshot. auto 10 with pulse_inv. Qed.

Lemma sample_invariant os d : invariant d -> invariant (snd (sample os d)).
Proof.
  intros H. rewrite sample_run.
  destruct (cpu_percent os); [|exact H].
  destruct (virtual_memory_percent os); [|exact H].
  destruct (net_io_counters os); [|exact H].
  cbn. apply record_snapshot_invariant. exact H.
Qed.

Lemma update_all_state os d : snd (update_all os d) = snd (sample os d).
Proof.
  unfold update_all, bind, ret. destruct (sample os d) as [[e|s] d']; reflexivity.
Qed.

Lemma handle_invariant d e : invariant d -> invariant (handle d e).
Proof.
  intros H. destruct e as [os|os1 os2|os]; cbn [handle].
  - rewrite update_all_state. now apply sample_invariant.
  - unfold force_refresh, bind.
    pose proof (sample_invariant os1 d H) as H1.
    destruct (sample os1 d) as [[e|s] d1]; cbn in H1 |- *; [exact H1|].
    rewrite update_all_state. now apply sample_invariant.
  - unfold apply_settings. rewrite update_all_state. now apply sample_invariant.
Qed.

Lemma run_invariant es d : invariant d -> invariant (run es d).
Proof.
  unfold run. revert d. induction es as [|e es IH]; intros d H; cbn.
  - exact H.
  - apply IH. now apply handle_invariant.
Qed.

Lemma prefill_step_maxlen d :
  maxlen (cpu_hist (prefill_step d)) = maxlen (cpu_hist d) /\
  maxlen (ram_hist (prefill_step d)) = maxlen (ram_hist d) /\
  maxlen (disk_hist (prefill_step d)) = maxlen (disk_hist d) /\
  maxlen (net_sent_hist (prefill_step d)) = maxlen (net_sent_hist d) /\
  maxlen (net_recv_hist (prefill_step d)) = maxlen (net_recv_hist d).
Proof. repeat split. Qed.

(** The histories [__init__] leaves behind do not depend on what the
    operating system answered. *)
Lemma init_histories os d :
  SystemData_init os = inr d ->
  cpu_hist d = mk_deque MAX_HISTORY (repeat 0%Q MAX_HISTORY) /\
  ram_hist d = mk_deque MAX_HISTORY (repeat 0%Q MAX_HISTORY) /\
  disk_hist d = mk_deque MAX_HISTORY (repeat 0%Q MAX_HISTORY) /\
  net_sent_hist d = mk_deque MAX_HISTORY (repeat 0%Q MAX_HISTORY) /\
  net_recv_hist d = mk_deque MAX_HISTORY (repeat 0%Q MAX_HISTORY).
Proof.
  unfold SystemData_init. destruct (net_io_counters os) as [net|]; [|discriminate].
  intros E. injection E as <-. vm_compute. repeat split.
Qed.

Lemma init_invariant os d : SystemData_init os = inr d -> invariant d.
Proof.
  intros E. destruct (init_histories os d E) as (H1 & H2 & H3 & H4 & H5).
  unfold invariant, well_formed, full_histories.
  rewrite H1, H2, H3, H4, H5. cbn [maxlen items].
  rewrite repeat_length. repeat split.
Qed.

Lemma boot_state_init : SystemData_init os_boot = inr boot_state.
Proof. vm_compute. reflexivity. Qed.

(** ** Claims on [sample] *)

(** C4. Every history is filled with [MAX_HISTORY] zeros by [__init__],
    and after any sequence of timer ticks, refreshes and applied settings,
    whether the samples in them succeed or raise, every one of the five
    histories holds exactly [MAX_HISTORY] values. *)
Theorem history_length_invariant os0 d0 es :
  SystemData_init os0 = inr d0 ->
  (items (cpu_hist d0) = repeat 0%Q MAX_HISTORY /\
   items (ram_hist d0) = repeat 0%Q MAX_HISTORY /\
   items (disk_hist d0) = repeat 0%Q MAX_HISTORY /\
   items (net_sent_hist d0) = repeat 0%Q MAX_HISTORY /\
   items (net_recv_hist d0) = repeat 0%Q MAX_HISTORY) /\
  MAX_HISTORY = 120%nat /\
  full_histories (run es d0).
Proof.
  intros E. split; [|split; [reflexivity|]].
  - destruct (init_histories os0 d0 E) as (H1 & H2 & H3 & H4 & H5).
    rewrite H1, H2, H3, H4, H5. repeat split.
  - apply (run_invariant es d0). exact (init_invariant os0 d0 E).
Qed.

Lemma history_length_invariant_witness :
  full_histories
    (run [Tick os_reset; RefreshNow os_later os_no_cpu; Apply os_later;
          Tick os_no_cpu] boot_state).
Proof.
  apply (history_length_invariant os_boot boot_state
           [Tick os_reset; RefreshNow os_later os_no_cpu; Apply os_later;
            Tick os_no_cpu]).
  vm_compute. reflexivity.
Defined.

(** C9. When the processor or the memory query fails, [sample] raises and
    leaves every field as it was: no history gains a value and the stored
    counters and timestamp stay; the same holds of the tick that called
    it. *)
Theorem metrics_unavailable_atomic os d :
  cpu_percent os = None \/ virtual_memory_percent os = None ->
  exists e,
    sample os d = (inl e, d) /\
    update_all os d = (inl e, d) /\
    handle d (Tick os) = d.
Proof.
  intros H.
  assert (Hs : exists e, sample os d = (inl e, d)).
  { rewrite sample_run. destruct H as [H|H]; rewrite H.
    - eexists; reflexivity.
    - destruct (cpu_percent os); eexists; reflexivity. }
  destruct Hs as [e Hs]. exists e.
  assert (Hu : update_all os d = (inl e, d))
    by (unfold update_all, bind; rewrite Hs; reflexivity).
  repeat split; try assumption.
  cbn [handle]. rewrite Hu. reflexivity.
Qed.

Lemma metrics_unavailable_atomic_witness :
  exists e,
    sample os_no_cpu boot_state = (inl e, boot_state) /\
    update_all os_no_cpu boot_state = (inl e, boot_state) /\
    handle boot_state (Tick os_no_cpu) = boot_state.
Proof.
  apply (metrics_unavailable_atomic os_no_cpu boot_state).
  left. reflexivity.
Defined.

(** C10. After a successful [sample] on fields built by [__init__], the
    rightmost value of each history is the corresponding entry of the
    returned snapshot. *)
Theorem snapshot_recorded os d snap d' :
  well_formed d ->
  sample os d = (inr snap, d') ->
  (exists l, items (cpu_hist d') = l ++ [s_cpu snap]) /\
  (exists l, items (ram_hist d') = l ++ [s_ram snap]) /\
  (exists l, items (disk_hist d') = l ++ [s_disk_percent snap]) /\
  (exists l, items (net_sent_hist d') = l ++ [s_net_sent snap]) /\
  (exists l, items (net_recv_hist d') = l ++ [s_net_recv snap]).
Proof.
  intros (W1 & W2 & W3 & W4 & W5). rewrite sample_run.
  destruct (cpu_percent os) as [cpu|]; [|discriminate].
  destruct (virtual_memory_percent os) as [ram|]; [|discriminate].
  destruct (net_io_counters os) as [net|]; [|discriminate].
  cbv zeta. intros E. injection E as <- <-.
  unfold record_snapshot, snapshot_value.
  cbn [s_cpu s_ram s_disk_percent s_net_sent s_net_recv cpu_hist ram_hist
       disk_hist net_sent_hist net_recv_hist append_cpu_hist append_ram_hist
       append_disk_hist append_net_sent_hist append_net_recv_hist
       set_last_net set_last_time].
  repeat split; apply deque_append_rightmost;
    rewrite ?W1, ?W2, ?W3, ?W4, ?W5; unfold MAX_HISTORY; lia.
Qed.

Lemma snapshot_recorded_witness :
  (exists l, items (cpu_hist (snd (sample os_reset boot_state))) =
             l ++ [inject_Z 10]) /\
  (exists l, items (ram_hist (snd (sample os_reset boot_state))) =
             l ++ [inject_Z 30]) /\
  (exists l, items (disk_hist (snd (sample os_reset boot_state))) =
             l ++ [(4200 # 100)%Q]) /\
  (exists l, items (net_sent_hist (snd (sample os_reset boot_state))) =
             l ++ [(-1000 # 1)%Q]) /\
  (exists l, items (net_recv_hist (snd (sample os_reset boot_state))) =
             l ++ [(500 # 1)%Q]).
Proof.
  apply (snapshot_recorded os_reset boot_state
           (mk_snapshot (inject_Z 10) (inject_Z 30) (4200 # 100)%Q
                        (-1000 # 1)%Q (500 # 1)%Q)
           (snd (sample os_reset boot_state))).
  - vm_compute. repeat split.
  - vm_compute. reflexivity.
Defined.

Lemma sample_success os d cpu ram net :
  cpu_percent os = Some cpu ->
  virtual_memory_percent os = Some ram ->
  net_io_counters os = Some net ->
  sample os d =
  (inr (snapshot_value os d cpu ram net),
   record_snapshot os net (snapshot_value os d cpu ram net) d).
Proof.
  intros Hc Hr Hn. rewrite sample_run, Hc, Hr, Hn. reflexivity.
Qed.

Lemma negative_rate current previous now last :
  current < previous -> (rate_value current previous now last < 0)%Q.
Proof.
  intros Hlt. unfold rate_value.
  apply Qlt_shift_div_r; [apply elapsed_of_pos|].
  rewrite Qmult_0_l. unfold Qlt. cbn. lia.
Qed.

(** C1, as the specification has it, fails: with the sent counter fallen
    from 1000 to 0 over one time unit, the sampled sent rate is -1000, not
    0. *)
Lemma counter_reset_not_clamped :
  bytes_sent (mk_snetio 0 2500) < bytes_sent (last_net boot_state) /\
  net_io_counters os_reset = Some (mk_snetio 0 2500) /\
  exists snap d',
    sample os_reset boot_state = (inr snap, d') /\
    (s_net_sent snap == inject_Z (-1000))%Q /\
    ~ (s_net_sent snap == 0)%Q.
Proof.
  split; [reflexivity|]. split; [reflexivity|].
  eexists. eexists. split; [vm_compute; reflexivity|].
  split; [reflexivity|]. intros H. discriminate H.
Qed.

(** C1, amended. A sample whose queries answer computes each rate as
    [(current - previous) / elapsed] with the clamped elapsed time as
    divisor and no clamp on the difference: when the current counter is
    below the stored one the rate is strictly negative. *)
Theorem sample_rate_unclamped os d cpu ram net :
  cpu_percent os = Some cpu ->
  virtual_memory_percent os = Some ram ->
  net_io_counters os = Some net ->
  exists snap d',
    sample os d = (inr snap, d') /\
    s_net_sent snap =
      (inject_Z (bytes_sent net - bytes_sent (last_net d)) /
       elapsed_of (time_time os) (last_time d))%Q /\
    s_net_recv snap =
      (inject_Z (bytes_recv net - bytes_recv (last_net d)) /
       elapsed_of (time_time os) (last_time d))%Q /\
    (bytes_sent net < bytes_sent (last_net d) -> (s_net_sent snap < 0)%Q) /\
    (bytes_recv net < bytes_recv (last_net d) -> (s_net_recv snap < 0)%Q).
Proof.
  intros Hc Hr Hn. eexists. eexists.
  split; [apply (sample_success os d cpu ram net Hc Hr Hn)|].
  cbn [snapshot_value s_net_sent s_net_recv].
  split; [reflexivity|]. split; [reflexivity|].
  split; intros Hlt; now apply negative_rate.
Qed.

Lemma sample_rate_unclamped_witness :
  exists snap d',
    sample os_reset boot_state = (inr snap, d') /\
    s_net_sent snap =
      (inject_Z (0 - 1000) /
       elapsed_of (inject_Z 101) (inject_Z 100))%Q /\
    s_net_recv snap =
      (inject_Z (2500 - 2000) /
       elapsed_of (inject_Z 101) (inject_Z 100))%Q /\
    (0 < 1000 -> (s_net_sent snap < 0)%Q) /\
    (2500 < 2000 -> (s_net_recv snap < 0)%Q).
Proof.
  apply (sample_rate_unclamped os_reset boot_state (inject_Z 10)
           (inject_Z 30) (mk_snetio 0 2500)); reflexivity.
Defined.

(** C6. When the clock has not advanced past the stored timestamp, the
    divisor of both rates is 1: the sample raises no division by zero, and
    when its queries answer it returns with each rate equal to the counter
    difference divided by 1. *)
Theorem elapsed_clamp_safe os d :
  (time_time os - last_time d <= 0)%Q ->
  elapsed_of (time_time os) (last_time d) = 1%Q /\
  fst (sample os d) <> inl ZeroDivisionError /\
  forall cpu ram net,
    cpu_percent os = Some cpu ->
    virtual_memory_percent os = Some ram ->
    net_io_counters os = Some net ->
    exists snap d',
      sample os d = (inr snap, d') /\
      s_net_sent snap =
        (inject_Z (bytes_sent net - bytes_sent (last_net d)) / 1)%Q /\
      s_net_recv snap =
        (inject_Z (bytes_recv net - bytes_recv (last_net d)) / 1)%Q.
Proof.
  intros Hle. pose proof (elapsed_of_clamped _ _ Hle) as He.
  split; [exact He|]. split.
  - rewrite sample_run.
    destruct (cpu_percent os); [|discriminate].
    destruct (virtual_memory_percent os); [|discriminate].
    destruct (net_io_counters os); discriminate.
  - intros cpu ram net Hc Hr Hn. eexists. eexists.
    split; [apply (sample_success os d cpu ram net Hc Hr Hn)|].
    cbn [snapshot_value s_net_sent s_net_recv]. unfold rate_value.
    rewrite He. split; reflexivity.
Qed.

Lemma elapsed_clamp_safe_witness :
  elapsed_of (time_time os_same_instant) (last_time boot_state) = 1%Q /\
  fst (sample os_same_instant boot_state) <> inl ZeroDivisionError /\
  forall cpu ram net,
    cpu_percent os_same_instant = Some cpu ->
    virtual_memory_percent os_same_instant = Some ram ->
    net_io_counters os_same_instant = Some net ->
    exists snap d',
      sample os_same_instant boot_state = (inr snap, d') /\
      s_net_sent snap =
        (inject_Z (bytes_sent net - bytes_sent (last_net boot_state)) / 1)%Q /\
      s_net_recv snap =
        (inject_Z (bytes_recv net - bytes_recv (last_net boot_state)) / 1)%Q.
Proof.
  apply (elapsed_clamp_safe os_same_instant boot_state).
  vm_compute. discriminate.
Defined.

(** The divisor of the rates is positive for every pair of timestamps, so
    no sample divides by zero. *)
Lemma sample_never_divides_by_zero os d :
  (0 < elapsed_of (time_time os) (last_time d))%Q /\
  fst (sample os d) <> inl ZeroDivisionError.
Proof.
  split; [apply elapsed_of_pos|]. rewrite sample_run.
  destruct (cpu_percent os); [|discriminate].
  destruct (virtual_memory_percent os); [|discriminate].
  destruct (net_io_counters os); discriminate.
Qed.

(** ** The disk aggregate *)

(** C3, as the specification has it, fails: the one enumerated partition
    does not answer, the root would answer 42 percent, and the sample
    reports 0 without probing the root. *)
Lemma unreadable_partitions_skip_probe :
  disk_partitions os_unreadable = Some ["/mnt/data"%string] /\
  disk_usage os_unreadable "/mnt/data" = None /\
  disk_usage os_unreadable "/" =
    Some (mk_sdiskusage 100 42 58 (inject_Z 42)) /\
  exists snap d',
    sample os_unreadable boot_state = (inr snap, d') /\
    s_disk_percent snap = 0%Q /\
    ~ (s_disk_percent snap == inject_Z 42)%Q.
Proof.
  repeat (split; [reflexivity|]).
  eexists. eexists. split; [vm_compute; reflexivity|].
  split; [reflexivity|]. intros H. discriminate H.
Qed.

(** C3, amended. The disk block of [sample] never raises and touches no
    field.  When the enumeration of partitions answers, the result is
    [sum(used) / sum(total) * 100] over the partitions whose usage can be
    read, the others being skipped, and 0 when that total is not positive
    (in particular when no partition can be read); the root is not probed.
    Only when the enumeration itself fails is the result the root's own
    percent, and 0 when that probe fails too.  The value is the
    [disk_percent] of the snapshot. *)
Theorem disk_percent_chain os d :
  exists v,
    sample_disk_percent os d = (inr v, d) /\
    (forall parts,
        disk_partitions os = Some parts ->
        let us := readable_usages os parts in
        (0 < sum_Z (map du_total us) ->
         v = (inject_Z (sum_Z (map du_used us)) /
              inject_Z (sum_Z (map du_total us)) * inject_Z 100)%Q) /\
        (sum_Z (map du_total us) <= 0 -> v = 0%Q)) /\
    (disk_partitions os = None ->
     forall u, disk_usage os "/" = Some u -> v = du_percent u) /\
    (disk_partitions os = None -> disk_usage os "/" = None -> v = 0%Q) /\
    (forall snap d', sample os d = (inr snap, d') -> s_disk_percent snap = v).
Proof.
  exists (disk_percent_value os).
  split; [apply sample_disk_percent_run|].
  unfold disk_percent_value, aggregate_percent.
  repeat split.
  - intros Hpos. rewrite H. apply Z.ltb_lt in Hpos. now rewrite Hpos.
  - intros Hle. rewrite H. apply Z.ltb_ge in Hle. now rewrite Hle.
  - intros Hn u Hu. now rewrite Hn, Hu.
  - intros Hn Hu. now rewrite Hn, Hu.
  - intros snap d'. rewrite sample_run.
    destruct (cpu_percent os); [|discriminate].
    destruct (virtual_memory_percent os); [|discriminate].
    destruct (net_io_counters os); [|discriminate].
    cbv zeta. intros E. injection E as <- _. reflexivity.
Qed.

Lemma disk_percent_chain_witness :
  exists v,
    sample_disk_percent os_unreadable boot_state = (inr v, boot_state) /\
    (forall parts,
        disk_partitions os_unreadable = Some parts ->
        let us := readable_usages os_unreadable parts in
        (0 < sum_Z (map du_total us) ->
         v = (inject_Z (sum_Z (map du_used us)) /
              inject_Z (sum_Z (map du_total us)) * inject_Z 100)%Q) /\
        (sum_Z (map du_total us) <= 0 -> v = 0%Q)) /\
    (disk_partitions os_unreadable = None ->
     forall u, disk_usage os_unreadable "/" = Some u -> v = du_percent u) /\
    (disk_partitions os_unreadable = None ->
     disk_usage os_unreadable "/" = None -> v = 0%Q) /\
    (forall snap d',
        sample os_unreadable boot_state = (inr snap, d') ->
        s_disk_percent snap = v).
Proof.
  exact (disk_percent_chain os_unreadable boot_state).
Defined.

(** Two readable partitions at 50 and 25 of 100 aggregate to 37.5. *)
Example aggregate_of_two :
  (aggregate_percent [mk_sdiskusage 100 50 50 (inject_Z 50);
                      mk_sdiskusage 100 25 75 (inject_Z 25)] == 375 # 10)%Q.
Proof. reflexivity. Qed.

(** ** Refresh Now *)

Lemma force_refresh_run os1 os2 d c1 r1 n1 c2 r2 n2 :
  cpu_percent os1 = Some c1 ->
  virtual_memory_percent os1 = Some r1 ->
  net_io_counters os1 = Some n1 ->
  cpu_percent os2 = Some c2 ->
  virtual_memory_percent os2 = Some r2 ->
  net_io_counters os2 = Some n2 ->
  let s1 := snapshot_value os1 d c1 r1 n1 in
  let d1 := record_snapshot os1 n1 s1 d in
  let s2 := snapshot_value os2 d1 c2 r2 n2 in
  force_refresh os1 os2 d = (inr s2, record_snapshot os2 n2 s2 d1).
Proof.
  intros H1 H2 H3 H4 H5 H6 s1 d1 s2.
  unfold force_refresh, update_all, bind.
  rewrite (sample_success os1 d c1 r1 n1 H1 H2 H3).
  fold s1. fold d1.
  rewrite (sample_success os2 d1 c2 r2 n2 H4 H5 H6).
  reflexivity.
Qed.

Lemma two_appends_evict_two d x y :
  List.length (items d) = maxlen d -> (2 <= maxlen d)%nat ->
  items (deque_append (deque_append d x) y) = skipn 2 (items d) ++ [x; y].
Proof.
  intros Hlen Hcap.
  rewrite deque_append_evicts;
    [| rewrite deque_append_maxlen; apply deque_append_full; exact Hlen
     | rewrite deque_append_maxlen; lia].
  rewrite deque_append_evicts by (assumption || lia).
  destruct (items d) as [|a [|b r]]; cbn in *; try lia.
  now rewrite <- app_assoc.
Qed.

(** One Refresh Now on fields that satisfy the invariant, with both of its
    samples answering, puts two values into every history. *)
Lemma force_refresh_appends_two os1 os2 d s d' :
  invariant d ->
  force_refresh os1 os2 d = (inr s, d') ->
  exists s1 d1,
    sample os1 d = (inr s1, d1) /\
    items (cpu_hist d') = skipn 2 (items (cpu_hist d)) ++ [s_cpu s1; s_cpu s] /\
    items (ram_hist d') = skipn 2 (items (ram_hist d)) ++ [s_ram s1; s_ram s] /\
    items (disk_hist d') =
      skipn 2 (items (disk_hist d)) ++ [s_disk_percent s1; s_disk_percent s] /\
    items (net_sent_hist d') =
      skipn 2 (items (net_sent_hist d)) ++ [s_net_sent s1; s_net_sent s] /\
    items (net_recv_hist d') =
      skipn 2 (items (net_recv_hist d)) ++ [s_net_recv s1; s_net_recv s].
Proof.
  intros ((W1 & W2 & W3 & W4 & W5) & (F1 & F2 & F3 & F4 & F5)).
  unfold force_refresh, update_all, bind. rewrite sample_run.
  destruct (cpu_percent os1) as [c1|]; [|discriminate].
  destruct (virtual_memory_percent os1) as [r1|]; [|discriminate].
  destruct (net_io_counters os1) as [n1|]; [|discriminate].
  cbv zeta iota beta. rewrite sample_run.
  destruct (cpu_percent os2) as [c2|]; [|discriminate].
  destruct (virtual_memory_percent os2) as [r2|]; [|discriminate].
  destruct (net_io_counters os2) as [n2|]; [|discriminate].
  unfold ret. cbv zeta. intros E. injection E as <- <-.
  eexists. eexists. split; [reflexivity|].
  unfold record_snapshot, snapshot_value.
  cbn [s_cpu s_ram s_disk_percent s_net_sent s_net_recv cpu_hist ram_hist
       disk_hist net_sent_hist net_recv_hist append_cpu_hist append_ram_hist
       append_disk_hist append_net_sent_hist append_net_recv_hist
       set_last_net set_last_time].
  repeat split; apply two_appends_evict_two;
    rewrite ?W1, ?W2, ?W3, ?W4, ?W5; unfold MAX_HISTORY in *;
    (assumption || lia).
Qed.

(** C2 fails on the code. One Refresh Now after construction, observing
    processor loads 10 and then 20, leaves both as the two rightmost values
    of the processor history and evicts the two oldest; every other history
    gains two values as well. *)
Theorem force_refresh_samples_twice :
  exists s d',
    force_refresh os_reset os_later boot_state = (inr s, d') /\
    items (cpu_hist d') =
      skipn 2 (items (cpu_hist boot_state)) ++ [inject_Z 10; inject_Z 20] /\
    items (ram_hist d') =
      skipn 2 (items (ram_hist boot_state)) ++ [inject_Z 30; inject_Z 31] /\
    (exists x y,
        items (disk_hist d') = skipn 2 (items (disk_hist boot_state)) ++ [x; y]) /\
    (exists x y,
        items (net_sent_hist d') =
        skipn 2 (items (net_sent_hist boot_state)) ++ [x; y]) /\
    (exists x y,
        items (net_recv_hist d') =
        skipn 2 (items (net_recv_hist boot_state)) ++ [x; y]) /\
    items (cpu_hist d') <> tl (items (cpu_hist boot_state)) ++ [s_cpu s].
Proof.
  destruct (force_refresh os_reset os_later boot_state) as [[e|s] d'] eqn:E;
    [vm_compute in E; discriminate E|].
  exists s, d'. split; [reflexivity|].
  destruct (force_refresh_appends_two os_reset os_later boot_state s d'
              (init_invariant _ _ boot_state_init) E)
    as (s1 & d1 & Hs1 & H1 & H2 & H3 & H4 & H5).
  assert (Es1 : s_cpu s1 = inject_Z 10 /\ s_ram s1 = inject_Z 30)
    by (vm_compute in Hs1; injection Hs1 as <- _; split; reflexivity).
  assert (Es : s_cpu s = inject_Z 20 /\ s_ram s = inject_Z 31)
    by (vm_compute in E; injection E as <- _; split; reflexivity).
  destruct Es1 as [Ec1 Er1]. destruct Es as [Ec Er].
  rewrite Ec1, Ec in H1. rewrite Er1, Er in H2.
  repeat split; try assumption; try (eexists; eexists; eassumption).
  rewrite H1, Ec. vm_compute. discriminate.
Qed.

(** ** [human_readable_bytes] *)

Lemma scale_pos m : (0 < scale m)%Q.
Proof.
  unfold scale, Qlt. cbn. rewrite Z.mul_1_r.
  apply Z.pow_pos_nonneg; lia.
Qed.

Lemma scale_succ m : (scale (Datatypes.S m) == step * scale m)%Q.
Proof.
  unfold scale, step. rewrite <- inject_Z_mult.
  rewrite Nat2Z.inj_succ, Z.pow_succ_r by lia. reflexivity.
Qed.

Lemma scale_zero n : (n == n / scale 0)%Q.
Proof. unfold scale. cbn. field. Qed.

Lemma leb_le a b : PyFloat.leb a b = true <-> (a <= b)%Q.
Proof.
  unfold PyFloat.leb. rewrite Qle_alt.
  destruct (a ?= b)%Q; split; congruence.
Qed.

Lemma leb_gt a b : PyFloat.leb a b = false <-> (b < a)%Q.
Proof.
  unfold PyFloat.leb. rewrite Qgt_alt.
  destruct (a ?= b)%Q; split; congruence.
Qed.

Lemma hrb_while_steps k n i :
  exists m v,
    hrb_while k n i = (v, (i + m)%nat) /\
    (m <= k)%nat /\
    (v == n / scale m)%Q /\
    ((m < k)%nat -> (v < step)%Q) /\
    ((0 < m)%nat -> (1 <= v)%Q).
Proof.
  revert n i. induction k as [|k IH]; intros n i.
  - exists 0%nat, n. cbn [hrb_while]. rewrite Nat.add_0_r.
    repeat split; try lia. apply scale_zero.
  - cbn [hrb_while]. destruct (PyFloat.leb step n) eqn:E.
    + destruct (IH (n / step)%Q (Datatypes.S i)) as (m & v & Hr & Hm & Hv & Hlt & Hge).
      exists (Datatypes.S m), v. rewrite Hr.
      replace (i + Datatypes.S m)%nat with (Datatypes.S i + m)%nat by lia.
      repeat split; try lia.
      * rewrite Hv, scale_succ. field. split.
        -- pose proof (scale_pos m) as Hp. intros Hz. rewrite Hz in Hp.
           exact (Qlt_irrefl 0 Hp).
        -- discriminate.
      * intros Hmk. apply Hlt. lia.
      * intros _. destruct m as [|m'].
        -- rewrite Hv, <- scale_zero.
           apply Qle_shift_div_l; [reflexivity|].
           rewrite Qmult_1_l. now apply leb_le.
        -- apply Hge. lia.
    + exists 0%nat, n. rewrite Nat.add_0_r.
      repeat split; try lia.
      * apply scale_zero.
      * intros _. now apply leb_gt.
Qed.

(** The integer [round_half_even] picks is within one half of its
    argument. *)
Lemma round_half_even_nearest q :
  (inject_Z (PyFloat.round_half_even q) - (1 # 2) <= q /\
   q <= inject_Z (PyFloat.round_half_even q) + (1 # 2))%Q.
Proof.
  unfold PyFloat.round_half_even.
  pose proof (Qfloor_le q) as Hlo. pose proof (Qlt_floor q) as Hhi.
  rewrite inject_Z_plus in Hhi. change (inject_Z 1) with 1%Q in Hhi.
  destruct (Qcompare_spec (q - inject_Z (Qfloor q)) (1 # 2)) as [He|Hl|Hg].
  - destruct (Z.even (Qfloor q)); rewrite ?inject_Z_plus;
      change (inject_Z 1) with 1%Q; split; lra.
  - split; lra.
  - rewrite inject_Z_plus. change (inject_Z 1) with 1%Q. split; lra.
Qed.

(** Ties go to the even digit, as Python prints the floats 0.25 and
    0.75. *)
Example format_1f_ties :
  PyFloat.format_1f (25 # 100) = "0.2"%string /\
  PyFloat.format_1f (75 # 100) = "0.8"%string /\
  PyFloat.format_1f (1023 # 1) = "1023.0"%string.
Proof. repeat split. Qed.

(** C5, as the specification has it, fails: the text for 0 has its one
    decimal like every other number. *)
Lemma humanize_zero_has_decimal :
  human_readable_bytes (Some 0%Q) = "0.0 B"%string /\
  human_readable_bytes (Some 0%Q) <> "0 B"%string.
Proof. split; [reflexivity | discriminate]. Qed.

(** C5, amended. For every number the text is the value divided by
    [1024 ** i], printed with one decimal, a blank, and the unit at index
    [i] of B, KB, MB, GB, TB; the divided value is below 1024 unless the
    unit is TB and at least 1 unless the unit is B.  The text for 0 is
    "0.0 B" ("0 B" is the text for [None] only), for 1536 it is "1.5 KB"
    and for 1073741824 it is "1.0 GB". *)
Theorem humanize_steps_units :
  (forall n : Q,
      exists (i : nat) (v : Q),
        human_readable_bytes (Some n) =
          (PyFloat.format_1f v ++ " " ++ nth i units EmptyString)%string /\
        (i <= 4)%nat /\
        (v == n / scale i)%Q /\
        ((i < 4)%nat -> (v < inject_Z 1024)%Q) /\
        ((0 < i)%nat -> (1 <= v)%Q)) /\
  units = ["B"; "KB"; "MB"; "GB"; "TB"]%string /\
  human_readable_bytes None = "0 B"%string /\
  human_readable_bytes (Some 0%Q) = "0.0 B"%string /\
  human_readable_bytes (Some (inject_Z 1536)) = "1.5 KB"%string /\
  human_readable_bytes (Some (inject_Z 1073741824)) = "1.0 GB"%string.
Proof.
  split; [|repeat split].
  intros n. unfold human_readable_bytes.
  destruct (hrb_while_steps (List.length units - 1) n 0)
    as (m & v & Hr & Hm & Hv & Hlt & Hge).
  rewrite Hr. exists m, v. cbn in Hm, Hlt. repeat split; assumption.
Qed.

Lemma humanize_steps_units_witness :
  exists (i : nat) (v : Q),
    human_readable_bytes (Some (inject_Z 1536)) =
      (PyFloat.format_1f v ++ " " ++ nth i units EmptyString)%string /\
    (i <= 4)%nat /\
    (v == inject_Z 1536 / scale i)%Q /\
    ((i < 4)%nat -> (v < inject_Z 1024)%Q) /\
    ((0 < i)%nat -> (1 <= v)%Q).
Proof.
  exact (proj1 humanize_steps_units (inject_Z 1536)).
Defined.

(** ** Stable sorting *)

Lemma Sorted_weaken {A : Type} (R R' : A -> A -> Prop) (l : list A) :
  (forall a b, R a b -> R' a b) -> Sorted R l -> Sorted R' l.
Proof.
  intros Himp Hs. induction Hs as [|a l Hs IH Hhd]; constructor.
  - exact IH.
  - destruct Hhd; constructor. now apply Himp.
Qed.

Section StableSortFacts.
Context {A K : Type} (key : A -> K) (lt eqv : K -> K -> bool).

(** [lt] is asymmetric, and keys related by [lt] are never both
    equivalent to a third. *)
Hypothesis lt_asym : forall a b, lt a b = true -> lt b a = false.
Hypothesis lt_apart :
  forall k a b, lt a b = true -> eqv k a = true -> eqv k b = true -> False.

Lemma insert_sorted_perm x l :
  Permutation (x :: l) (insert_sorted key lt x l).
Proof.
  induction l as [|y l IH]; cbn.
  - apply Permutation_refl.
  - destruct (lt (key y) (key x)).
    + eapply perm_trans; [apply perm_swap|]. now apply perm_skip.
    + apply Permutation_refl.
Qed.

Lemma stable_sort_perm l : Permutation l (stable_sort key lt l).
Proof.
  induction l as [|x l IH]; cbn.
  - constructor.
  - eapply perm_trans; [apply perm_skip, IH|]. apply insert_sorted_perm.
Qed.

Lemma insert_sorted_HdRel y x l :
  lt (key y) (key x) = true ->
  HdRel (not_after key lt) y l ->
  HdRel (not_after key lt) y (insert_sorted key lt x l).
Proof.
  intros Hlt Hhd. destruct l as [|z l]; cbn.
  - constructor. unfold not_after. now apply lt_asym.
  - destruct (lt (key z) (key x)).
    + constructor. now inversion Hhd.
    + constructor. unfold not_after. now apply lt_asym.
Qed.

Lemma insert_sorted_Sorted x l :
  Sorted (not_after key lt) l ->
  Sorted (not_after key lt) (insert_sorted key lt x l).
Proof.
  intros Hs. induction Hs as [|y l Hs IH Hhd]; cbn.
  - repeat constructor.
  - destruct (lt (key y) (key x)) eqn:E.
    + constructor; [exact IH|]. now apply insert_sorted_HdRel.
    + constructor; [now constructor|]. constructor. exact E.
Qed.

Lemma stable_sort_Sorted l :
  Sorted (not_after key lt) (stable_sort key lt l).
Proof.
  induction l as [|x l IH]; cbn.
  - constructor.
  - now apply insert_sorted_Sorted.
Qed.

Lemma insert_sorted_stable k x l :
  filter (fun a => eqv k (key a)) (insert_sorted key lt x l) =
  filter (fun a => eqv k (key a)) (x :: l).
Proof.
  induction l as [|y l IH]; [reflexivity|].
  cbn [insert_sorted]. destruct (lt (key y) (key x)) eqn:E; [|reflexivity].
  cbn [filter] in *. rewrite IH.
  destruct (eqv k (key y)) eqn:Ey, (eqv k (key x)) eqn:Ex; try reflexivity.
  exfalso. exact (lt_apart k _ _ E Ey Ex).
Qed.

Lemma stable_sort_stable k l :
  filter (fun a => eqv k (key a)) (stable_sort key lt l) =
  filter (fun a => eqv k (key a)) l.
Proof.
  induction l as [|x l IH]; [reflexivity|].
  cbn [stable_sort fold_right]. fold (stable_sort key lt l).
  rewrite insert_sorted_stable. cbn [filter]. now rewrite IH.
Qed.
End StableSortFacts.

(** *** The three key orders *)

Lemma ltb_lt a b : PyFloat.ltb a b = true <-> (a < b)%Q.
Proof.
  unfold PyFloat.ltb. rewrite Qlt_alt.
  destruct (a ?= b)%Q; split; congruence.
Qed.

Lemma ltb_ge a b : PyFloat.ltb a b = false <-> (b <= a)%Q.
Proof.
  unfold PyFloat.ltb. rewrite Qge_alt.
  destruct (a ?= b)%Q; split; congruence.
Qed.

Lemma float_gt_asym a b :
  PyFloat.ltb b a = true -> PyFloat.ltb a b = false.
Proof.
  rewrite ltb_lt, ltb_ge. apply Qlt_le_weak.
Qed.

Lemma float_gt_apart k a b :
  PyFloat.ltb b a = true -> Qeq_bool k a = true -> Qeq_bool k b = true ->
  False.
Proof.
  rewrite ltb_lt. intros Hlt Ha Hb.
  apply Qeq_bool_eq in Ha. apply Qeq_bool_eq in Hb.
  rewrite <- Ha, <- Hb in Hlt. exact (Qlt_irrefl k Hlt).
Qed.

Lemma int_lt_asym a b : (a <? b) = true -> (b <? a) = false.
Proof. intros H. apply Z.ltb_lt in H. apply Z.ltb_ge. lia. Qed.

Lemma int_lt_apart k a b :
  (a <? b) = true -> (k =? a) = true -> (k =? b) = true -> False.
Proof.
  intros H Ha Hb. apply Z.ltb_lt in H. apply Z.eqb_eq in Ha, Hb. lia.
Qed.

Lemma string_lt_asym a b : string_ltb a b = true -> string_ltb b a = false.
Proof.
  unfold string_ltb. rewrite (String.compare_antisym a b).
  destruct (String.compare b a); cbn; congruence.
Qed.

Lemma string_compare_refl a : String.compare a a = Eq.
Proof.
  pose proof (String.compare_antisym a a) as H.
  destruct (String.compare a a); cbn in H; congruence.
Qed.

Lemma string_lt_apart k a b :
  string_ltb a b = true -> String.eqb k a = true -> String.eqb k b = true ->
  False.
Proof.
  intros H Ha Hb. apply String.eqb_eq in Ha, Hb. subst a b.
  unfold string_ltb in H. rewrite string_compare_refl in H. discriminate.
Qed.

Lemma str_or_empty n : str_or n EmptyString = n.
Proof. destruct n; reflexivity. Qed.

Lemma sort_procs_stably_sorted s l : stably_sorted s l (sort_procs s l).
Proof.
  unfold stably_sorted, sort_procs, in_order, same_key, list_sort.
  destruct (String.eqb s "CPU"); [|destruct (String.eqb s "RAM");
    [|destruct (String.eqb s "PID")]].
  - split; [apply stable_sort_perm|]. split.
    + eapply Sorted_weaken;
        [|apply stable_sort_Sorted; intros a b; apply float_gt_asym].
      unfold not_after. intros a b H. now apply ltb_ge.
    + intros t. apply (stable_sort_stable t_cpu _ Qeq_bool).
      intros k a b. apply float_gt_apart.
  - split; [apply stable_sort_perm|]. split.
    + eapply Sorted_weaken;
        [|apply stable_sort_Sorted; intros a b; apply float_gt_asym].
      unfold not_after. intros a b H. now apply ltb_ge.
    + intros t. apply (stable_sort_stable t_mem _ Qeq_bool).
      intros k a b. apply float_gt_apart.
  - split; [apply stable_sort_perm|]. split.
    + eapply Sorted_weaken; [|apply stable_sort_Sorted; apply int_lt_asym].
      unfold not_after. intros a b H. apply Z.ltb_ge in H. exact H.
    + intros t. apply (stable_sort_stable t_pid _ Z.eqb). apply int_lt_apart.
  - split; [apply stable_sort_perm|]. split.
    + eapply Sorted_weaken; [|apply stable_sort_Sorted; apply string_lt_asym].
      unfold not_after. intros a b H. rewrite !str_or_empty in H.
      unfold string_ltb in H. rewrite String.compare_antisym.
      destruct (String.compare (PyStr.lower (t_name b))
                               (PyStr.lower (t_name a))); cbn; congruence.
    + intros t.
      pose proof (stable_sort_stable
                    (fun t0 => PyStr.lower (str_or (t_name t0) EmptyString))
                    string_ltb String.eqb string_lt_apart
                    (PyStr.lower (t_name t)) l) as H.
      assert (Hext : forall a,
                 String.eqb (PyStr.lower (t_name t)) (PyStr.lower (t_name a)) =
                 String.eqb (PyStr.lower (t_name t))
                            (PyStr.lower (str_or (t_name a) EmptyString)))
        by (intros a; now rewrite str_or_empty).
      rewrite !(filter_ext _ _ Hext). exact H.
Qed.

(** *** A stable sort has one result *)

Section StableSortUnique.
Context {A : Type} (le : A -> A -> Prop) (same : A -> A -> bool).

Hypothesis le_trans : forall a b c, le a b -> le b c -> le a c.
Hypothesis same_refl : forall a, same a a = true.
Hypothesis le_antisym : forall a b, le a b -> le b a -> same a b = true.

Lemma Sorted_head_least a l b :
  Sorted le (a :: l) -> In b l -> le a b.
Proof.
  intros Hs Hin. apply Sorted_StronglySorted in Hs; [|exact le_trans].
  inversion Hs as [|? ? _ Hall]; subst.
  rewrite Forall_forall in Hall. now apply Hall.
Qed.

Lemma filter_tail_agree a l1 l2 :
  (forall t, filter (same t) (a :: l1) = filter (same t) (a :: l2)) ->
  forall t, filter (same t) l1 = filter (same t) l2.
Proof.
  intros H t. specialize (H t). cbn [filter] in H.
  destruct (same t a); [now injection H|exact H].
Qed.

Lemma stable_sorted_unique l1 l2 :
  Permutation l1 l2 -> Sorted le l1 -> Sorted le l2 ->
  (forall t, filter (same t) l1 = filter (same t) l2) ->
  l1 = l2.
Proof.
  revert l2. induction l1 as [|a r1 IH]; intros l2 Hp Hs1 Hs2 Hf.
  - apply Permutation_nil in Hp. now subst.
  - destruct l2 as [|b r2];
      [apply Permutation_sym, Permutation_nil in Hp; discriminate|].
    assert (Hab : a = b).
    { assert (Hin_a : In a (b :: r2))
        by (eapply Permutation_in; [exact Hp|now left]).
      assert (Hin_b : In b (a :: r1))
        by (eapply Permutation_in; [apply Permutation_sym, Hp|now left]).
      destruct Hin_a as [->|Hin_a]; [reflexivity|].
      destruct Hin_b as [->|Hin_b]; [reflexivity|].
      assert (Hsame : same a b = true).
      { apply le_antisym.
        - exact (Sorted_head_least a r1 b Hs1 Hin_b).
        - exact (Sorted_head_least b r2 a Hs2 Hin_a). }
      specialize (Hf a). cbn [filter] in Hf.
      rewrite same_refl, Hsame in Hf. now injection Hf. }
    subst b. f_equal. apply IH.
    + exact (Permutation_cons_inv Hp).
    + now inversion Hs1.
    + now inversion Hs2.
    + exact (filter_tail_agree a r1 r2 Hf).
Qed.
End StableSortUnique.

Lemma string_compare_le_trans a b c :
  String.compare a b <> Gt -> String.compare b c <> Gt ->
  String.compare a c <> Gt.
Proof.
  change String.compare with String_as_OT.compare.
  intros Hab Hbc.
  destruct (String_as_OT.compare_spec a b) as [Eab|Lab|Gab];
    [unfold String_as_OT.eq in Eab; subst b; exact Hbc | | congruence].
  destruct (String_as_OT.compare_spec b c) as [Ebc|Lbc|Gbc];
    [unfold String_as_OT.eq in Ebc; subst c | | congruence].
  - unfold String_as_OT.lt in Lab. congruence.
  - assert (Lac : String_as_OT.lt a c)
      by (eapply (@StrictOrder_Transitive _ _ String_as_OT.lt_strorder);
          eassumption).
    unfold String_as_OT.lt in Lac. congruence.
Qed.

Lemma in_order_trans s a b c :
  in_order s a b -> in_order s b c -> in_order s a c.
Proof.
  unfold in_order.
  destruct (String.eqb s "CPU"); [|destruct (String.eqb s "RAM");
    [|destruct (String.eqb s "PID")]].
  - intros H1 H2. eapply Qle_trans; eassumption.
  - intros H1 H2. eapply Qle_trans; eassumption.
  - lia.
  - apply string_compare_le_trans.
Qed.

Lemma same_key_refl s a : same_key s a a = true.
Proof.
  unfold same_key.
  destruct (String.eqb s "CPU"); [|destruct (String.eqb s "RAM");
    [|destruct (String.eqb s "PID")]].
  - apply Qeq_bool_refl.
  - apply Qeq_bool_refl.
  - apply Z.eqb_refl.
  - apply String.eqb_refl.
Qed.

Lemma in_order_antisym s a b :
  in_order s a b -> in_order s b a -> same_key s a b = true.
Proof.
  unfold in_order, same_key.
  destruct (String.eqb s "CPU"); [|destruct (String.eqb s "RAM");
    [|destruct (String.eqb s "PID")]].
  - intros H1 H2. apply Qeq_eq_bool. now apply Qle_antisym.
  - intros H1 H2. apply Qeq_eq_bool. now apply Qle_antisym.
  - intros H1 H2. apply Z.eqb_eq. lia.
  - intros H1 H2. apply String.eqb_eq. apply String.compare_eq_iff.
    rewrite String.compare_antisym in H2.
    destruct (String.compare (PyStr.lower (t_name a))
                             (PyStr.lower (t_name b)));
      cbn in H2; congruence.
Qed.

(** Whatever algorithm sorts stably, it returns the list [sort_procs]
    does. *)
Lemma stably_sorted_unique s l out1 out2 :
  stably_sorted s l out1 -> stably_sorted s l out2 -> out1 = out2.
Proof.
  intros (Hp1 & Hs1 & Hf1) (Hp2 & Hs2 & Hf2).
  apply (stable_sorted_unique (in_order s) (same_key s)
           (in_order_trans s) (same_key_refl s) (in_order_antisym s)).
  - eapply perm_trans; [apply Permutation_sym, Hp1|exact Hp2].
  - exact Hs1.
  - exact Hs2.
  - intros t. now rewrite Hf1, Hf2.
Qed.

(** ** Substrings *)

Lemma prefix_spec sub s :
  prefix sub s = true <-> exists b, s = (sub ++ b)%string.
Proof.
  revert s. induction sub as [|c sub IH]; intros s.
  - split; [intros _; now exists s | intros _; destruct s; reflexivity].
  - destruct s as [|c' s]; cbn.
    + split; [discriminate | intros [b Hb]; discriminate].
    + destruct (ascii_dec c c') as [->|Hne].
      * rewrite IH. split; intros [b Hb]; exists b; congruence.
      * split; [discriminate | intros [b Hb]; congruence].
Qed.

Lemma contains_spec sub s :
  PyStr.contains sub s = true <-> substring_of sub s.
Proof.
  unfold substring_of. induction s as [|c s IH]; cbn [PyStr.contains].
  - rewrite orb_false_r, prefix_spec. split.
    + intros [b Hb]. now exists EmptyString, b.
    + intros (a & b & Hab). destruct a; [now exists b|discriminate].
  - rewrite orb_true_iff, prefix_spec, IH. split.
    + intros [[b Hb]|(a & b & Hab)].
      * now exists EmptyString, b.
      * exists (String c a), b. cbn. now rewrite Hab.
    + intros (a & b & Hab). destruct a as [|c' a].
      * left. now exists b.
      * right. exists a, b. cbn in Hab. congruence.
Qed.

Lemma truthy_false q : PyStr.truthy q = false <-> q = EmptyString.
Proof. destruct q; cbn; split; congruence. Qed.

Lemma keep_spec q t :
  keep q t = true <->
  substring_of q (PyStr.lower (t_name t)) \/ q = PyStr.str (t_pid t).
Proof.
  unfold keep. rewrite str_or_empty, orb_true_iff, contains_spec.
  now rewrite String.eqb_eq.
Qed.

(** ** Slices *)

Lemma slice_to_nonneg {A : Type} (l : list A) n :
  0 <= n -> slice_to l n = firstn (Z.to_nat n) l.
Proof.
  intros Hn. unfold slice_to.
  replace (n <? 0) with false by (symmetry; apply Z.ltb_ge; exact Hn).
  reflexivity.
Qed.

(** ** Claims on [update_process_list] *)

(** C7. For a limit that is not negative, the displayed list is the first
    [top_n] entries of the enumerated records sorted for the chosen key
    (processor and memory share from high to low, PID from low to high,
    lower-cased name from low to high; equal keys in enumeration order,
    which leaves one possible result), after the filter, which keeps
    everything when the query is empty; it is never longer than [top_n].  The three records A, B, C of the example
    come out as B, C, A by processor share, and as B, C under a limit of
    2. *)
Theorem process_ranking :
  (forall text top s ps,
      0 <= top ->
      let q := PyStr.lower (PyStr.strip text) in
      let out := update_process_list text top s ps in
      exists sorted,
        stably_sorted s (enumerate_processes ps) sorted /\
        (forall other,
            stably_sorted s (enumerate_processes ps) other ->
            other = sorted) /\
        out = firstn (Z.to_nat top)
                (if PyStr.truthy q then filter (keep q) sorted else sorted) /\
        (q = EmptyString -> out = firstn (Z.to_nat top) sorted) /\
        Z.of_nat (List.length out) <= top) /\
  enumerate_processes abc_processes = [rec_A; rec_B; rec_C] /\
  update_process_list EmptyString 30 "CPU" abc_processes = [rec_B; rec_C; rec_A] /\
  update_process_list EmptyString 2 "CPU" abc_processes = [rec_B; rec_C].
Proof.
  split; [|repeat split].
  intros text top s ps Htop q out.
  exists (sort_procs s (enumerate_processes ps)).
  assert (Hout : out = firstn (Z.to_nat top)
            (if PyStr.truthy q
             then filter (keep q) (sort_procs s (enumerate_processes ps))
             else sort_procs s (enumerate_processes ps))).
  { unfold out, update_process_list. fold q. now apply slice_to_nonneg. }
  split; [apply sort_procs_stably_sorted|]. split.
  { intros other Hother.
    exact (stably_sorted_unique s _ _ _ Hother
             (sort_procs_stably_sorted s (enumerate_processes ps))). }
  split; [exact Hout|]. split.
  - intros Hq. rewrite Hout. apply truthy_false in Hq. now rewrite Hq.
  - rewrite Hout.
    pose proof (firstn_le_length (Z.to_nat top)
      (if PyStr.truthy q
       then filter (keep q) (sort_procs s (enumerate_processes ps))
       else sort_procs s (enumerate_processes ps))) as Hlen.
    lia.
Qed.

Lemma process_ranking_witness :
  exists sorted,
    stably_sorted "CPU" (enumerate_processes abc_processes) sorted /\
    (forall other,
        stably_sorted "CPU" (enumerate_processes abc_processes) other ->
        other = sorted) /\
    update_process_list EmptyString 2 "CPU" abc_processes =
      firstn (Z.to_nat 2)
        (if PyStr.truthy (PyStr.lower (PyStr.strip EmptyString))
         then filter (keep (PyStr.lower (PyStr.strip EmptyString))) sorted
         else sorted) /\
    (PyStr.lower (PyStr.strip EmptyString) = EmptyString ->
     update_process_list EmptyString 2 "CPU" abc_processes =
       firstn (Z.to_nat 2) sorted) /\
    Z.of_nat (List.length (update_process_list EmptyString 2 "CPU" abc_processes)) <= 2.
Proof.
  apply (proj1 process_ranking EmptyString 2 "CPU"%string abc_processes). lia.
Defined.

(** C8, as the specification has it, fails: the text " 3", a blank and the
    digit, neither occurs in the name "foo" nor is the decimal form of the
    PID 3, and the record is displayed. *)
Lemma filter_text_is_stripped :
  update_process_list " 3" 30 "PID" digit_processes = [rec_xy3; rec_foo] /\
  In rec_foo (update_process_list " 3" 30 "PID" digit_processes) /\
  ~ kept_by_text " 3" rec_foo.
Proof.
  split; [reflexivity|]. split; [right; left; reflexivity|].
  intros [Hsub|Hpid].
  - apply contains_spec in Hsub. discriminate Hsub.
  - discriminate Hpid.
Qed.

(** C8, amended. With [q] the filter text stripped of surrounding white
    space and lower-cased, and a limit that is not negative, the displayed
    list is the first [top_n] of the sorted records that pass a test which
    holds of a record exactly when [q] is empty, or [q] occurs in the
    lower-cased name, or [q] is the decimal form of the PID; under a limit
    that truncates nothing, a record is displayed exactly when it was
    enumerated and passes.  The text "3" against PIDs 1, 2, 3 named abc,
    xy3, foo displays exactly xy3 and foo. *)
Theorem filter_semantics :
  (forall text top s ps,
      0 <= top ->
      let q := PyStr.lower (PyStr.strip text) in
      (exists test,
          (forall t, test t = true <-> kept_by q t) /\
          update_process_list text top s ps =
            firstn (Z.to_nat top)
              (filter test (sort_procs s (enumerate_processes ps)))) /\
      (Z.of_nat (List.length (enumerate_processes ps)) <= top ->
       forall t,
         In t (update_process_list text top s ps) <->
         In t (enumerate_processes ps) /\ kept_by q t)) /\
  update_process_list "3" 30 "PID" digit_processes = [rec_xy3; rec_foo] /\
  enumerate_processes digit_processes = [rec_abc; rec_xy3; rec_foo].
Proof.
  split; [|split; reflexivity].
  intros text top s ps Htop q.
  set (test := fun t => if PyStr.truthy q then keep q t else true).
  assert (Htest : forall t, test t = true <-> kept_by q t).
  { intros t. unfold test, kept_by. destruct (PyStr.truthy q) eqn:Eq.
    - rewrite keep_spec. split; [tauto|]. intros [H|H]; [|exact H].
      subst q. rewrite H in Eq. discriminate.
    - apply truthy_false in Eq. tauto. }
  assert (Hout : update_process_list text top s ps =
            firstn (Z.to_nat top)
              (filter test (sort_procs s (enumerate_processes ps)))).
  { unfold update_process_list. fold q. rewrite slice_to_nonneg by exact Htop.
    unfold test. destruct (PyStr.truthy q).
    - reflexivity.
    - f_equal. symmetry. apply forallb_filter_id.
      apply forallb_forall. reflexivity. }
  split; [exists test; split; assumption|].
  intros Hall t. rewrite Hout.
  pose proof (sort_procs_stably_sorted s (enumerate_processes ps))
    as (Hperm & _ & _).
  rewrite firstn_all2.
  - rewrite filter_In, Htest. split; intros [Hin Hk]; split; try assumption.
    + eapply Permutation_in; [apply Permutation_sym; exact Hperm|exact Hin].
    + eapply Permutation_in; [exact Hperm|exact Hin].
  - pose proof (filter_length_le test
                  (sort_procs s (enumerate_processes ps))) as Hf.
    pose proof (Permutation_length Hperm) as Hp. lia.
Qed.

Lemma filter_semantics_witness :
  (exists test,
      (forall t, test t = true <->
                 kept_by (PyStr.lower (PyStr.strip " 3")) t) /\
      update_process_list " 3" 30 "PID" digit_processes =
        firstn (Z.to_nat 30)
          (filter test
             (sort_procs "PID" (enumerate_processes digit_processes)))) /\
  (Z.of_nat (List.length (enumerate_processes digit_processes)) <= 30 ->
   forall t,
     In t (update_process_list " 3" 30 "PID" digit_processes) <->
     In t (enumerate_processes digit_processes) /\
     kept_by (PyStr.lower (PyStr.strip " 3")) t).
Proof.
  apply (proj1 filter_semantics " 3"%string 30 "PID"%string digit_processes).
  lia.
Defined.

(** * Further properties *)

(** ** Outcomes of [sample] *)

Lemma answers_spec os :
  answers os = true <->
  exists cpu ram net,
    cpu_percent os = Some cpu /\ virtual_memory_percent os = Some ram /\
    net_io_counters os = Some net.
Proof.
  unfold answers.
  destruct (cpu_percent os) as [c|], (virtual_memory_percent os) as [r|],
    (net_io_counters os) as [n|]; split;
    try discriminate; try (intros (? & ? & ? & ? & ? & ?); discriminate).
  - intros _. now exists c, r, n.
  - reflexivity.
Qed.

(** X1. [sample] raises exactly when the processor, memory or network
    query fails; what the disk queries do never makes it raise, and a
    raising [sample] leaves every field as it was. *)
Theorem sample_raises_atomically os d :
  (answers os = false <-> exists e, sample os d = (inl e, d)) /\
  (answers os = true <-> exists snap d', sample os d = (inr snap, d')) /\
  forall e d', sample os d = (inl e, d') ->
               d' = d /\ exists call, e = PsutilError call.
Proof.
  rewrite sample_run. unfold answers.
  destruct (cpu_percent os) as [c|], (virtual_memory_percent os) as [r|],
    (net_io_counters os) as [n|]; cbv zeta.
  all: split; [split|split; [split|]].
  all: try discriminate.
  all: try (intros _; reflexivity).
  all: try (intros _; eexists; reflexivity).
  all: try (intros _; eexists; eexists; reflexivity).
  all: try (intros [e He]; discriminate He).
  all: try (intros (sn & d1 & He); discriminate He).
  all: intros e d' He; injection He as <- <-.
  all: split; [reflexivity|eexists; reflexivity].
Qed.

Lemma sample_raises_atomically_witness :
  (answers os_no_cpu = false <->
   exists e, sample os_no_cpu boot_state = (inl e, boot_state)) /\
  (answers os_no_cpu = true <->
   exists snap d', sample os_no_cpu boot_state = (inr snap, d')) /\
  forall e d', sample os_no_cpu boot_state = (inl e, d') ->
               d' = boot_state /\ exists call, e = PsutilError call.
Proof. exact (sample_raises_atomically os_no_cpu boot_state). Defined.

Lemma sample_inversion os d snap d' :
  sample os d = (inr snap, d') ->
  exists cpu ram net,
    cpu_percent os = Some cpu /\ virtual_memory_percent os = Some ram /\
    net_io_counters os = Some net /\
    snap = snapshot_value os d cpu ram net /\
    d' = record_snapshot os net snap d.
Proof.
  rewrite sample_run.
  destruct (cpu_percent os) as [c|]; [|discriminate].
  destruct (virtual_memory_percent os) as [r|]; [|discriminate].
  destruct (net_io_counters os) as [n|]; [|discriminate].
  cbv zeta. intros E. injection E as <- <-.
  exists c, r, n. repeat split.
Qed.





Lemma nonnegative_rate current previous now last :
  previous <= current -> (0 <= rate_value current previous now last)%Q.
Proof.
  intros Hle. unfold rate_value.
  apply Qle_shift_div_l; [apply elapsed_of_pos|].
  rewrite Qmult_0_l. unfold Qle. cbn. lia.
Qed.

(** X3. In a successful [sample], a counter that has not fallen below the
    stored one gives a rate that is not negative, and a counter that has
    not moved gives the rate 0, whatever the two timestamps are. *)
Theorem steady_counters_rate os d snap d' net :
  sample os d = (inr snap, d') ->
  net_io_counters os = Some net ->
  (bytes_sent (last_net d) <= bytes_sent net -> (0 <= s_net_sent snap)%Q) /\
  (bytes_recv (last_net d) <= bytes_recv net -> (0 <= s_net_recv snap)%Q) /\
  (bytes_sent net = bytes_sent (last_net d) -> (s_net_sent snap == 0)%Q) /\
  (bytes_recv net = bytes_recv (last_net d) -> (s_net_recv snap == 0)%Q).
Proof.
  intros Hs Hn.
  destruct (sample_inversion _ _ _ _ Hs) as (c & r & n & _ & _ & Hn' & -> & _).
  rewrite Hn in Hn'. injection Hn' as <-.
  cbn [snapshot_value s_net_sent s_net_recv].
  repeat split; intros H.
  - now apply nonnegative_rate.
  - now apply nonnegative_rate.
  - unfold rate_value. rewrite H, Z.sub_diag. apply Qmult_0_l.
  - unfold rate_value. rewrite H, Z.sub_diag. apply Qmult_0_l.
Qed.

Lemma steady_counters_rate_witness :
  (bytes_sent (last_net boot_state) <= bytes_sent (mk_snetio 1500 2000) ->
   (0 <= s_net_sent
           (snapshot_value os_same_instant boot_state (inject_Z 10)
              (inject_Z 30) (mk_snetio 1500 2000)))%Q) /\
  (bytes_recv (last_net boot_state) <= bytes_recv (mk_snetio 1500 2000) ->
   (0 <= s_net_recv
           (snapshot_value os_same_instant boot_state (inject_Z 10)
              (inject_Z 30) (mk_snetio 1500 2000)))%Q) /\
  (bytes_sent (mk_snetio 1500 2000) = bytes_sent (last_net boot_state) ->
   (s_net_sent
      (snapshot_value os_same_instant boot_state (inject_Z 10)
         (inject_Z 30) (mk_snetio 1500 2000)) == 0)%Q) /\
  (bytes_recv (mk_snetio 1500 2000) = bytes_recv (last_net boot_state) ->
   (s_net_recv
      (snapshot_value os_same_instant boot_state (inject_Z 10)
         (inject_Z 30) (mk_snetio 1500 2000)) == 0)%Q).
Proof.
  apply (steady_counters_rate os_same_instant boot_state _
           (snd (sample os_same_instant boot_state))).
  - vm_compute. reflexivity.
  - reflexivity.
Defined.

(** ** The disk share stays a percentage *)

Lemma readable_usages_in os parts u :
  In u (readable_usages os parts) ->
  exists p, In p parts /\ disk_usage os p = Some u.
Proof.
  unfold readable_usages. rewrite in_flat_map. intros (p & Hp & Hu).
  exists p. split; [exact Hp|].
  destruct (disk_usage os p) as [u'|]; cbn in Hu; [|contradiction].
  destruct Hu as [->|[]]. reflexivity.
Qed.

Lemma sums_ordered (us : list sdiskusage) :
  (forall u, In u us -> 0 <= du_used u <= du_total u) ->
  0 <= sum_Z (map du_used us) <= sum_Z (map du_total us).
Proof.
  induction us as [|u us IH]; intros H; cbn; [lia|].
  pose proof (H u (or_introl eq_refl)) as Hu.
  assert (IH' := IH (fun v Hv => H v (or_intror Hv))).
  unfold sum_Z in IH'. lia.
Qed.

Lemma aggregate_percent_bounded us :
  (forall u, In u us -> 0 <= du_used u <= du_total u) ->
  (0 <= aggregate_percent us <= inject_Z 100)%Q.
Proof.
  intros H. pose proof (sums_ordered us H) as [Hlo Hhi].
  unfold aggregate_percent.
  destruct (0 <? sum_Z (map du_total us)) eqn:E;
    [|split; [apply Qle_refl|discriminate]].
  apply Z.ltb_lt in E.
  set (a := sum_Z (map du_used us)) in *.
  set (b := sum_Z (map du_total us)) in *.
  assert (Hb : (0 < inject_Z b)%Q) by (unfold Qlt; cbn; lia).
  assert (Hq0 : (0 <= inject_Z a / inject_Z b)%Q).
  { apply Qle_shift_div_l; [exact Hb|]. rewrite Qmult_0_l.
    unfold Qle. cbn. lia. }
  assert (Hq1 : (inject_Z a / inject_Z b <= 1)%Q).
  { apply Qle_shift_div_r; [exact Hb|]. rewrite Qmult_1_l.
    unfold Qle. cbn. lia. }
  change (inject_Z 100) with 100%Q. split; nra.
Qed.

(** X4. When the enumeration of partitions answers and every partition
    that can be read reports [0 <= used <= total], the disk share of a
    successful [sample] lies between 0 and 100. *)
Theorem disk_percent_is_a_percentage os d snap d' parts :
  sample os d = (inr snap, d') ->
  disk_partitions os = Some parts ->
  (forall p u, In p parts -> disk_usage os p = Some u ->
               0 <= du_used u <= du_total u) ->
  (0 <= s_disk_percent snap <= inject_Z 100)%Q.
Proof.
  intros Hs Hp Hu.
  destruct (sample_inversion _ _ _ _ Hs) as (c & r & n & _ & _ & _ & -> & _).
  cbn [snapshot_value s_disk_percent]. unfold disk_percent_value.
  rewrite Hp. apply aggregate_percent_bounded.
  intros u Hin. destruct (readable_usages_in _ _ _ Hin) as (p & Hin' & Hpu).
  exact (Hu p u Hin' Hpu).
Qed.

Lemma disk_percent_is_a_percentage_witness :
  (0 <= s_disk_percent
          (snapshot_value os_reset boot_state (inject_Z 10) (inject_Z 30)
             (mk_snetio 0 2500)) <= inject_Z 100)%Q.
Proof.
  apply (disk_percent_is_a_percentage os_reset boot_state _
           (snd (sample os_reset boot_state)) ["/"%string]).
  - vm_compute. reflexivity.
  - reflexivity.
  - intros p u [<-|[]] Hu. vm_compute in Hu. injection Hu as <-.
    cbn. lia.
Defined.

(** ** Ring buffers *)

Lemma lastn_all {A : Type} n (l : list A) :
  (List.length l <= n)%nat -> lastn n l = l.
Proof.
  intros H. unfold lastn.
  replace (List.length l - n)%nat with 0%nat by lia. reflexivity.
Qed.

Lemma lastn_length {A : Type} n (l : list A) :
  List.length (lastn n l) = Nat.min n (List.length l).
Proof. unfold lastn. rewrite length_skipn. lia. Qed.

Lemma lastn_app_lastn {A : Type} n (l r : list A) :
  lastn n (lastn n l ++ r) = lastn n (l ++ r).
Proof.
  destruct (Nat.le_gt_cases (List.length l) n) as [Hle|Hgt].
  - now rewrite (lastn_all n l Hle).
  - unfold lastn at 1 3. rewrite !length_app, lastn_length.
    replace (Nat.min n (List.length l)) with n by lia.
    unfold lastn.
    replace (n + List.length r - n)%nat with (List.length r) by lia.
    replace (List.length l + List.length r - n)%nat
      with (List.length r + (List.length l - n))%nat by lia.
    rewrite <- skipn_skipn, (skipn_app (List.length l - n) l r).
    replace (List.length l - n - List.length l)%nat with 0%nat by lia.
    reflexivity.
Qed.

Lemma deque_append_lastn d x :
  (List.length (items d) <= maxlen d)%nat ->
  items (deque_append d x) = lastn (maxlen d) (items d ++ [x]).
Proof.
  intros Hle. unfold deque_append, lastn. cbn [items maxlen].
  rewrite length_app. cbn [List.length].
  destruct (maxlen d <? List.length (items d) + 1)%nat eqn:E.
  - apply Nat.ltb_lt in E.
    replace (List.length (items d) + 1 - maxlen d)%nat with 1%nat by lia.
    reflexivity.
  - apply Nat.ltb_ge in E.
    replace (List.length (items d) + 1 - maxlen d)%nat with 0%nat by lia.
    reflexivity.
Qed.

Lemma deque_append_bounded d x :
  (List.length (items d) <= maxlen d)%nat ->
  (List.length (items (deque_append d x)) <= maxlen (deque_append d x))%nat.
Proof.
  intros Hle. rewrite (deque_append_lastn d x Hle), lastn_length.
  cbn [maxlen deque_append]. lia.
Qed.

Lemma appends_keep_last xs d :
  (List.length (items d) <= maxlen d)%nat ->
  items (fold_left deque_append xs d) = lastn (maxlen d) (items d ++ xs) /\
  maxlen (fold_left deque_append xs d) = maxlen d.
Proof.
  revert d. induction xs as [|x xs IH]; intros d Hle.
  - cbn. rewrite app_nil_r. split; [|reflexivity].
    symmetry. now apply lastn_all.
  - cbn [fold_left].
    destruct (IH (deque_append d x) (deque_append_bounded d x Hle))
      as [Hi Hm].
    rewrite Hi, Hm. rewrite deque_append_maxlen.
    rewrite (deque_append_lastn d x Hle).
    rewrite lastn_app_lastn, <- app_assoc. split; reflexivity.
Qed.

(** X5. A deque that does not exceed its bound, after any number of
    appends, holds the last [maxlen] values of what it held followed by
    what was appended, in that order: it grows until the bound is reached
    and from then on drops its oldest value at every append. *)
Theorem deque_keeps_latest d xs :
  (List.length (items d) <= maxlen d)%nat ->
  items (fold_left deque_append xs d) = lastn (maxlen d) (items d ++ xs) /\
  maxlen (fold_left deque_append xs d) = maxlen d /\
  List.length (items (fold_left deque_append xs d)) =
    Nat.min (maxlen d) (List.length (items d) + List.length xs).
Proof.
  intros Hle. destruct (appends_keep_last xs d Hle) as [Hi Hm].
  repeat split; try assumption.
  rewrite Hi, lastn_length, length_app. reflexivity.
Qed.

Lemma deque_keeps_latest_witness :
  items (fold_left deque_append [1%Q; 2%Q; 3%Q] (mk_deque 2 [0%Q])) =
    lastn 2 ([0%Q] ++ [1%Q; 2%Q; 3%Q]) /\
  maxlen (fold_left deque_append [1%Q; 2%Q; 3%Q] (mk_deque 2 [0%Q])) = 2%nat /\
  List.length
    (items (fold_left deque_append [1%Q; 2%Q; 3%Q] (mk_deque 2 [0%Q]))) =
    Nat.min 2 (1 + 3).
Proof.
  apply (deque_keeps_latest (mk_deque 2 [0%Q]) [1%Q; 2%Q; 3%Q]).
  cbn. lia.
Defined.

(** ** What the histories hold after a run of ticks *)

Lemma tick_histories os d :
  cpu_hist (handle d (Tick os)) =
    (if answers os then deque_append (cpu_hist d) (cpu_of os)
     else cpu_hist d) /\
  ram_hist (handle d (Tick os)) =
    (if answers os then deque_append (ram_hist d) (ram_of os)
     else ram_hist d) /\
  disk_hist (handle d (Tick os)) =
    (if answers os then deque_append (disk_hist d) (disk_percent_value os)
     else disk_hist d).
Proof.
  cbn [handle]. rewrite update_all_state, sample_run.
  unfold answers, cpu_of, ram_of.
  destruct (cpu_percent os) as [c|], (virtual_memory_percent os) as [r|],
    (net_io_counters os) as [n|]; repeat split.
Qed.

Lemma ticks_histories oss d :
  cpu_hist (run (map Tick oss) d) =
    fold_left deque_append (map cpu_of (filter answers oss)) (cpu_hist d) /\
  ram_hist (run (map Tick oss) d) =
    fold_left deque_append (map ram_of (filter answers oss)) (ram_hist d) /\
  disk_hist (run (map Tick oss) d) =
    fold_left deque_append (map disk_percent_value (filter answers oss))
              (disk_hist d).
Proof.
  unfold run. revert d. induction oss as [|os oss IH]; intros d.
  - repeat split.
  - cbn [map fold_left filter].
    destruct (IH (handle d (Tick os))) as (Hc & Hr & Hd).
    destruct (tick_histories os d) as (Tc & Tr & Td).
    rewrite Hc, Hr, Hd, Tc, Tr, Td.
    destruct (answers os); repeat split.
Qed.

Lemma lastn_app_long {A : Type} n (l r : list A) :
  (n <= List.length r)%nat -> lastn n (l ++ r) = lastn n r.
Proof.
  intros Hle. unfold lastn. rewrite length_app, skipn_app.
  replace (List.length l + List.length r - n - List.length l)%nat
    with (List.length r - n)%nat by lia.
  rewrite skipn_all2 by lia. reflexivity.
Qed.

(** X6. After any run of timer ticks from fields that satisfy the
    invariant, the processor, memory and disk histories hold the last 120
    values of what they held followed by the values of the ticks whose
    queries answered, in order; ticks that raised leave no trace, and once
    120 ticks have answered nothing older remains. *)
Theorem histories_keep_latest oss d :
  invariant d ->
  let d' := run (map Tick oss) d in
  let ok := filter answers oss in
  items (cpu_hist d') =
    lastn MAX_HISTORY (items (cpu_hist d) ++ map cpu_of ok) /\
  items (ram_hist d') =
    lastn MAX_HISTORY (items (ram_hist d) ++ map ram_of ok) /\
  items (disk_hist d') =
    lastn MAX_HISTORY (items (disk_hist d) ++ map disk_percent_value ok) /\
  ((MAX_HISTORY <= List.length ok)%nat ->
   items (cpu_hist d') = lastn MAX_HISTORY (map cpu_of ok) /\
   items (ram_hist d') = lastn MAX_HISTORY (map ram_of ok) /\
   items (disk_hist d') = lastn MAX_HISTORY (map disk_percent_value ok)).
Proof.
  intros ((W1 & W2 & W3 & _) & (F1 & F2 & F3 & _)) d' ok.
  destruct (ticks_histories oss d) as (Hc & Hr & Hd).
  fold d' ok in Hc, Hr, Hd.
  assert (Ec : items (cpu_hist d') =
               lastn MAX_HISTORY (items (cpu_hist d) ++ map cpu_of ok)).
  { rewrite Hc, <- W1. apply appends_keep_last. lia. }
  assert (Er : items (ram_hist d') =
               lastn MAX_HISTORY (items (ram_hist d) ++ map ram_of ok)).
  { rewrite Hr, <- W2. apply appends_keep_last. lia. }
  assert (Ed : items (disk_hist d') =
               lastn MAX_HISTORY
                 (items (disk_hist d) ++ map disk_percent_value ok)).
  { rewrite Hd, <- W3. apply appends_keep_last. lia. }
  repeat split; try assumption.
  - rewrite Ec. apply lastn_app_long. now rewrite length_map.
  - rewrite Er. apply lastn_app_long. now rewrite length_map.
  - rewrite Ed. apply lastn_app_long. now rewrite length_map.
Qed.

Lemma histories_keep_latest_witness :
  let d' := run (map Tick [os_reset; os_no_cpu; os_later]) boot_state in
  let ok := filter answers [os_reset; os_no_cpu; os_later] in
  items (cpu_hist d') =
    lastn MAX_HISTORY (items (cpu_hist boot_state) ++ map cpu_of ok) /\
  items (ram_hist d') =
    lastn MAX_HISTORY (items (ram_hist boot_state) ++ map ram_of ok) /\
  items (disk_hist d') =
    lastn MAX_HISTORY
      (items (disk_hist boot_state) ++ map disk_percent_value ok) /\
  ((MAX_HISTORY <= List.length ok)%nat ->
   items (cpu_hist d') = lastn MAX_HISTORY (map cpu_of ok) /\
   items (ram_hist d') = lastn MAX_HISTORY (map ram_of ok) /\
   items (disk_hist d') = lastn MAX_HISTORY (map disk_percent_value ok)).
Proof.
  apply (histories_keep_latest [os_reset; os_no_cpu; os_later] boot_state).
  vm_compute. repeat split.
Defined.

(** ** The arrays of the curves *)

Lemma py_range_length a b : List.length (py_range a b) = Z.to_nat (b - a).
Proof. unfold py_range. now rewrite length_map, length_seq. Qed.

(** X7. In every state the application reaches from construction, the
    abscissa computed from the processor history alone runs from -119 to 0
    and has as many points as each of the five arrays it is plotted
    against, 120; the two network arrays are the histories divided by
    1024. *)
Theorem curves_are_aligned os0 d0 es :
  SystemData_init os0 = inr d0 ->
  let c := update_all_curves (run es d0) in
  x_axis c = py_range (-119) 1 /\
  nth_error (x_axis c) 0 = Some (-119) /\
  nth_error (x_axis c) 119 = Some 0 /\
  List.length (x_axis c) = 120%nat /\
  List.length (cpu_curve c) = 120%nat /\
  List.length (ram_curve c) = 120%nat /\
  List.length (disk_curve c) = 120%nat /\
  List.length (net_sent_curve c) = 120%nat /\
  List.length (net_recv_curve c) = 120%nat /\
  net_sent_curve c =
    map (fun v => (v / inject_Z 1024)%Q) (items (net_sent_hist (run es d0))) /\
  net_recv_curve c =
    map (fun v => (v / inject_Z 1024)%Q) (items (net_recv_hist (run es d0))).
Proof.
  intros E c.
  destruct (run_invariant es d0 (init_invariant os0 d0 E))
    as (_ & (F1 & F2 & F3 & F4 & F5)).
  unfold c, update_all_curves.
  cbn [x_axis cpu_curve ram_curve disk_curve net_sent_curve net_recv_curve].
  rewrite !length_map, F1, F2, F3, F4, F5.
  change (- Z.of_nat MAX_HISTORY + 1) with (-119).
  repeat split.
Qed.

Lemma curves_are_aligned_witness :
  let c := update_all_curves (run [Tick os_reset; Tick os_later] boot_state) in
  x_axis c = py_range (-119) 1 /\
  nth_error (x_axis c) 0 = Some (-119) /\
  nth_error (x_axis c) 119 = Some 0 /\
  List.length (x_axis c) = 120%nat /\
  List.length (cpu_curve c) = 120%nat /\
  List.length (ram_curve c) = 120%nat /\
  List.length (disk_curve c) = 120%nat /\
  List.length (net_sent_curve c) = 120%nat /\
  List.length (net_recv_curve c) = 120%nat /\
  net_sent_curve c =
    map (fun v => (v / inject_Z 1024)%Q)
        (items (net_sent_hist (run [Tick os_reset; Tick os_later] boot_state))) /\
  net_recv_curve c =
    map (fun v => (v / inject_Z 1024)%Q)
        (items (net_recv_hist (run [Tick os_reset; Tick os_later] boot_state))).
Proof.
  apply (curves_are_aligned os_boot boot_state [Tick os_reset; Tick os_later]).
  vm_compute. reflexivity.
Defined.

(** ** Enumerating processes *)

Lemma str_nonempty n : PyStr.str n <> EmptyString.
Proof.
  unfold PyStr.str, NilZero.string_of_int.
  destruct (Z.to_int n) as [d|d]; [|discriminate].
  destruct d; discriminate.
Qed.

Lemma read_process_name p t :
  read_process p = Some t ->
  t_pid t = info_pid p /\
  t_name t <> EmptyString /\
  (forall n, info_name p = Some n -> n <> EmptyString -> t_name t = n) /\
  (info_name p = None \/ info_name p = Some EmptyString ->
   t_name t = PyStr.str (info_pid p)).
Proof.
  unfold read_process.
  destruct (p_cpu_percent p) as [e|c]; [discriminate|].
  destruct (p_memory_percent p) as [e|m]; [discriminate|].
  intros E. injection E as <-. cbn [t_pid t_name].
  split; [reflexivity|].
  destruct (info_name p) as [[|a n]|]; cbn.
  - repeat split; try apply str_nonempty; try congruence.
  - repeat split; try discriminate.
    + intros n' E _. now injection E.
    + intros [H|H]; discriminate.
  - repeat split; try apply str_nonempty; try congruence.
Qed.

Lemma read_process_readable p :
  readable p = true <-> exists t, read_process p = Some t.
Proof.
  unfold readable, read_process.
  destruct (p_cpu_percent p), (p_memory_percent p); split;
    try discriminate; try (intros [t Ht]; discriminate Ht);
    try reflexivity.
  intros _. eexists. reflexivity.
Qed.

(** X8. The enumeration keeps, in order, exactly the processes whose two
    reads answer and drops the others without raising; every record it
    yields carries the PID of its process and a name that is never empty:
    the process's own name, or the decimal form of the PID when the
    process has none. *)
Theorem enumeration_skips_unreadable ps :
  map t_pid (enumerate_processes ps) = map info_pid (filter readable ps) /\
  (List.length (enumerate_processes ps) <= List.length ps)%nat /\
  Forall (fun t => t_name t <> EmptyString) (enumerate_processes ps) /\
  Forall2 (fun p t =>
             t_pid t = info_pid p /\
             (forall n, info_name p = Some n -> n <> EmptyString ->
                        t_name t = n) /\
             (info_name p = None \/ info_name p = Some EmptyString ->
              t_name t = PyStr.str (info_pid p)))
          (filter readable ps) (enumerate_processes ps).
Proof.
  induction ps as [|p ps (IH1 & IH2 & IH3 & IH4)];
    [repeat split; constructor|].
  cbn [enumerate_processes filter].
  destruct (read_process p) as [t|] eqn:E.
  - assert (Hr : readable p = true)
      by (apply read_process_readable; now exists t).
    rewrite Hr. destruct (read_process_name p t E) as (Hpid & Hne & Hn & Hd).
    cbn [map List.length]. repeat split.
    + now rewrite Hpid, IH1.
    + lia.
    + now constructor.
    + constructor; [repeat split; assumption|exact IH4].
  - assert (Hr : readable p = false).
    { destruct (readable p) eqn:R; [|reflexivity].
      apply read_process_readable in R. destruct R as [t Ht]. congruence. }
    rewrite Hr. cbn [List.length]. repeat split; try assumption. lia.
Qed.

Lemma enumeration_skips_unreadable_witness :
  map t_pid (enumerate_processes digit_processes) =
    map info_pid (filter readable digit_processes) /\
  (List.length (enumerate_processes digit_processes) <=
   List.length digit_processes)%nat /\
  Forall (fun t => t_name t <> EmptyString)
         (enumerate_processes digit_processes) /\
  Forall2 (fun p t =>
             t_pid t = info_pid p /\
             (forall n, info_name p = Some n -> n <> EmptyString ->
                        t_name t = n) /\
             (info_name p = None \/ info_name p = Some EmptyString ->
              t_name t = PyStr.str (info_pid p)))
          (filter readable digit_processes)
          (enumerate_processes digit_processes).
Proof. exact (enumeration_skips_unreadable digit_processes). Defined.

(** ** Sorting and filtering *)

Lemma StronglySorted_filter {A : Type} (R : A -> A -> Prop) f l :
  StronglySorted R l -> StronglySorted R (filter f l).
Proof.
  intros H. induction H as [|a l Hs IH Hall]; cbn; [constructor|].
  destruct (f a); [|exact IH].
  constructor; [exact IH|].
  rewrite Forall_forall in *. intros x Hx. apply Hall.
  now apply filter_In in Hx.
Qed.

Lemma in_order_Transitive s : Relations_1.Transitive (in_order s).
Proof. intros a b c. apply in_order_trans. Qed.

Lemma Permutation_filter_both {A : Type} (f : A -> bool) l l' :
  Permutation l l' -> Permutation (filter f l) (filter f l').
Proof.
  intros H. induction H as [|x l l' H IH|x y l|l l' l'' H1 IH1 H2 IH2]; cbn.
  - constructor.
  - destruct (f x); [now constructor|exact IH].
  - destruct (f x), (f y); try apply Permutation_refl. apply perm_swap.
  - eapply perm_trans; eassumption.
Qed.

Lemma filter_swap {A : Type} (f g : A -> bool) l :
  filter f (filter g l) = filter g (filter f l).
Proof.
  induction l as [|a l IH]; cbn; [reflexivity|].
  destruct (f a) eqn:Ef, (g a) eqn:Eg; cbn; rewrite ?Ef, ?Eg, IH;
    reflexivity.
Qed.

(** X9. Sorting and filtering commute: the list obtained by sorting and
    then dropping the records that fail a test, as [update_process_list]
    does, is the list obtained by sorting only the records that pass. *)
Theorem filter_commutes_with_sort s (f : proc_tuple -> bool) l :
  filter f (sort_procs s l) = sort_procs s (filter f l).
Proof.
  destruct (sort_procs_stably_sorted s l) as (Hp & Hs & Hf).
  apply (stably_sorted_unique s (filter f l)).
  - split; [now apply Permutation_filter_both|]. split.
    + apply StronglySorted_Sorted, StronglySorted_filter.
      apply Sorted_StronglySorted; [apply in_order_Transitive|exact Hs].
    + intros t. now rewrite filter_swap, Hf, filter_swap.
  - apply sort_procs_stably_sorted.
Qed.

(** X10. A list already in order for the chosen key is left as it is, so
    sorting twice is sorting once. *)
Theorem sort_procs_fixes_sorted s l :
  (Sorted (in_order s) l -> sort_procs s l = l) /\
  sort_procs s (sort_procs s l) = sort_procs s l.
Proof.
  assert (Hfix : forall l', Sorted (in_order s) l' -> sort_procs s l' = l').
  { intros l' Hs. apply (stably_sorted_unique s l').
    - apply sort_procs_stably_sorted.
    - split; [apply Permutation_refl|]. split; [exact Hs|reflexivity]. }
  split; [apply Hfix|].
  apply Hfix. now destruct (sort_procs_stably_sorted s l) as (_ & Hs & _).
Qed.

Lemma sort_procs_fixes_sorted_witness :
  (Sorted (in_order "PID") [rec_A; rec_B; rec_C] ->
   sort_procs "PID" [rec_A; rec_B; rec_C] = [rec_A; rec_B; rec_C]) /\
  sort_procs "PID" (sort_procs "PID" [rec_A; rec_B; rec_C]) =
    sort_procs "PID" [rec_A; rec_B; rec_C].
Proof. exact (sort_procs_fixes_sorted "PID" [rec_A; rec_B; rec_C]). Defined.

(** X11. Raising the limit only adds rows at the end: for limits
    [0 <= top <= top'] the list shown under [top] is the first [top] rows
    of the list shown under [top'], and a limit that reaches the number of
    enumerated processes cuts nothing. *)
Theorem limit_takes_a_prefix text top top' s ps :
  0 <= top <= top' ->
  update_process_list text top s ps =
    firstn (Z.to_nat top) (update_process_list text top' s ps) /\
  (Z.of_nat (List.length (enumerate_processes ps)) <= top ->
   update_process_list text top s ps = update_process_list text top' s ps).
Proof.
  intros [H0 Hle]. unfold update_process_list.
  set (l := if PyStr.truthy (PyStr.lower (PyStr.strip text))
            then filter (keep (PyStr.lower (PyStr.strip text)))
                        (sort_procs s (enumerate_processes ps))
            else sort_procs s (enumerate_processes ps)).
  rewrite !slice_to_nonneg by lia. split.
  - rewrite firstn_firstn. f_equal. lia.
  - intros Hall.
    assert (Hl : (List.length l <= List.length (enumerate_processes ps))%nat).
    { pose proof (sort_procs_stably_sorted s (enumerate_processes ps))
        as (Hp & _ & _).
      apply Permutation_length in Hp. unfold l.
      destruct (PyStr.truthy _); [|lia].
      pose proof (filter_length_le
                    (keep (PyStr.lower (PyStr.strip text)))
                    (sort_procs s (enumerate_processes ps))). lia. }
    rewrite !firstn_all2 by lia. reflexivity.
Qed.

Lemma limit_takes_a_prefix_witness :
  update_process_list EmptyString 2 "CPU" abc_processes =
    firstn (Z.to_nat 2) (update_process_list EmptyString 30 "CPU" abc_processes) /\
  (Z.of_nat (List.length (enumerate_processes abc_processes)) <= 2 ->
   update_process_list EmptyString 2 "CPU" abc_processes =
   update_process_list EmptyString 30 "CPU" abc_processes).
Proof.
  apply (limit_takes_a_prefix EmptyString 2 30 "CPU"%string abc_processes).
  lia.
Defined.

(** ** Rates as text *)

Lemma string_app_assoc (a b c : string) :
  ((a ++ b) ++ c = a ++ (b ++ c))%string.
Proof. induction a as [|x a IH]; cbn; [reflexivity|now rewrite IH]. Qed.

Lemma leb_negb_ltb a b : PyFloat.leb b a = negb (PyFloat.ltb a b).
Proof.
  unfold PyFloat.leb, PyFloat.ltb. rewrite <- (Qcompare_antisym a b).
  destruct (a ?= b)%Q; reflexivity.
Qed.

(** Comparisons of a rational with constants, through its numerator and
    denominator. *)
Ltac q_linear :=
  unfold step in *;
  match goal with
  | [ q : Q |- _ ] => destruct q
  end;
  unfold Qle, Qlt in *; cbn in *; lia.

Lemma below_gib bps :
  (bps < inject_Z 1073741824)%Q ->
  PyFloat.leb step (bps / step / step) = false.
Proof.
  intros H. apply leb_gt. unfold step.
  apply Qlt_shift_div_r; [reflexivity|].
  apply Qlt_shift_div_r; [reflexivity|].
  destruct bps as [n d]. unfold Qlt in *. cbn in *. lia.
Qed.

(** X12. Below 1024**3 bytes per second, negative rates included,
    [format_bytes_per_sec] prints what [human_readable_bytes] prints,
    followed by "/s": the same number and the same unit. *)
Theorem rate_text_agrees_with_sizes bps :
  (bps < inject_Z 1073741824)%Q ->
  format_bytes_per_sec bps =
    (human_readable_bytes (Some bps) ++ "/s")%string.
Proof.
  intros Hlt. unfold format_bytes_per_sec, human_readable_bytes.
  cbn [units List.length Nat.sub hrb_while].
  fold step. rewrite (leb_negb_ltb bps step).
  destruct (PyFloat.ltb bps step); cbn [negb].
  - cbn [nth]. now rewrite !string_app_assoc.
  - rewrite (leb_negb_ltb (bps / step) step).
    destruct (PyFloat.ltb (bps / step) step); cbn [negb].
    + cbn [nth]. now rewrite !string_app_assoc.
    + rewrite (below_gib bps Hlt). cbn [nth].
      now rewrite !string_app_assoc.
Qed.

Lemma rate_text_agrees_with_sizes_witness :
  format_bytes_per_sec (inject_Z (-1000)) =
    (human_readable_bytes (Some (inject_Z (-1000))) ++ "/s")%string.
Proof.
  apply (rate_text_agrees_with_sizes (inject_Z (-1000))). reflexivity.
Defined.

(** X13. [format_bytes_per_sec] knows three units.  A rate below 1024,
    any negative rate among them, is printed undivided in B/s; from 1024
    up to 1024**2 it is divided once and printed in KB/s; from 1024**2 on
    it is divided twice and printed in MB/s, however large: at 1024**3 and
    beyond the printed number is 1024 or more, where
    [human_readable_bytes] moves on to GB. *)
Theorem rate_text_units bps :
  ((bps < inject_Z 1024)%Q ->
   format_bytes_per_sec bps = (PyFloat.format_1f bps ++ " B/s")%string) /\
  ((inject_Z 1024 <= bps)%Q -> (bps < inject_Z 1048576)%Q ->
   format_bytes_per_sec bps =
     (PyFloat.format_1f (bps / inject_Z 1024) ++ " KB/s")%string /\
   (1 <= bps / inject_Z 1024)%Q /\ (bps / inject_Z 1024 < inject_Z 1024)%Q) /\
  ((inject_Z 1048576 <= bps)%Q ->
   format_bytes_per_sec bps =
     (PyFloat.format_1f (bps / inject_Z 1024 / inject_Z 1024) ++ " MB/s")%string
   /\ (1 <= bps / inject_Z 1024 / inject_Z 1024)%Q) /\
  ((inject_Z 1073741824 <= bps)%Q ->
   (inject_Z 1024 <= bps / inject_Z 1024 / inject_Z 1024)%Q /\
   exists v, human_readable_bytes (Some bps) =
             (PyFloat.format_1f v ++ " " ++ nth 3 units EmptyString)%string \/
             human_readable_bytes (Some bps) =
             (PyFloat.format_1f v ++ " " ++ nth 4 units EmptyString)%string).
Proof.
  assert (Hdiv : forall a b : Q,
             (inject_Z 1024 * b <= a)%Q -> (b <= a / inject_Z 1024)%Q).
  { intros a b H. apply Qle_shift_div_l; [reflexivity|].
    now rewrite Qmult_comm. }
  assert (Hdivlt : forall a b : Q,
             (a < inject_Z 1024 * b)%Q -> (a / inject_Z 1024 < b)%Q).
  { intros a b H. apply Qlt_shift_div_r; [reflexivity|].
    now rewrite Qmult_comm. }
  unfold format_bytes_per_sec. repeat split.
  - intros H. apply ltb_lt in H. now rewrite H.
  - apply ltb_ge in H. rewrite H.
    assert (Hk : PyFloat.ltb (bps / inject_Z 1024) (inject_Z 1024) = true)
      by (apply ltb_lt, Hdivlt; q_linear).
    now rewrite Hk.
  - apply Hdiv. q_linear.
  - apply Hdivlt. q_linear.
  - assert (Hb : PyFloat.ltb bps (inject_Z 1024) = false)
      by (apply ltb_ge; q_linear).
    assert (Hk : PyFloat.ltb (bps / inject_Z 1024) (inject_Z 1024) = false)
      by (apply ltb_ge, Hdiv; q_linear).
    now rewrite Hb, Hk.
  - apply Hdiv, Hdiv. q_linear.
  - apply Hdiv, Hdiv. q_linear.
  - unfold human_readable_bytes.
    cbn [units List.length Nat.sub hrb_while]. unfold step.
    assert (H1 : PyFloat.leb (inject_Z 1024) bps = true)
      by (apply leb_le; q_linear).
    assert (H2 : PyFloat.leb (inject_Z 1024) (bps / inject_Z 1024) = true)
      by (apply leb_le, Hdiv; q_linear).
    assert (H3 : PyFloat.leb (inject_Z 1024)
                   (bps / inject_Z 1024 / inject_Z 1024) = true)
      by (apply leb_le, Hdiv, Hdiv; q_linear).
    rewrite H1, H2, H3.
    destruct (PyFloat.leb (inject_Z 1024)
                (bps / inject_Z 1024 / inject_Z 1024 / inject_Z 1024)).
    + eexists. right. reflexivity.
    + eexists. left. reflexivity.
Qed.

Lemma rate_text_units_witness :
  format_bytes_per_sec (inject_Z (-5000000)) =
    (PyFloat.format_1f (inject_Z (-5000000)) ++ " B/s")%string.
Proof.
  apply (proj1 (rate_text_units (inject_Z (-5000000)))). reflexivity.
Defined.

(** ** Progress bars *)

Lemma Qfloor_below_bound x (b : Z) :
  (x < inject_Z b)%Q -> Qfloor x < b.
Proof.
  intros H. rewrite Zlt_Qlt.
  eapply Qle_lt_trans; [apply Qfloor_le|exact H].
Qed.

Lemma Qfloor_nonneg x : (0 <= x)%Q -> 0 <= Qfloor x.
Proof.
  intros H. change 0 with (Qfloor (inject_Z 0)).
  now apply Qfloor_resp_le.
Qed.

Lemma bar_value_le_100 x : bar_value x <= 100.
Proof.
  unfold bar_value, min_100, int_of_float.
  change (inject_Z 100) with 100%Q.
  destruct (PyFloat.ltb x 100) eqn:E100; [apply ltb_lt in E100|cbn; lia].
  destruct (PyFloat.ltb x 0) eqn:E0.
  - apply ltb_lt in E0.
    assert (Hc : Qceiling x <= Qceiling (inject_Z 0))
      by (apply Qceiling_resp_le; now apply Qlt_le_weak).
    rewrite Qceiling_Z in Hc. lia.
  - pose proof (Qfloor_below_bound x 100 E100). lia.
Qed.

(** X14. The value given to a progress bar, [int(min(100, x))], never
    exceeds 100.  It is 100 for every [x] from 100 up, the integer part of
    [x] for [0 <= x < 100], hence within the bar's range 0..100 for every
    [x] that is not negative; a negative [x] is rounded up toward 0. *)
Theorem bar_value_in_range x :
  bar_value x <= 100 /\
  ((inject_Z 100 <= x)%Q -> bar_value x = 100) /\
  ((0 <= x)%Q -> (x < inject_Z 100)%Q ->
   0 <= bar_value x <= 99 /\
   (inject_Z (bar_value x) <= x)%Q /\ (x < inject_Z (bar_value x + 1))%Q) /\
  ((x < 0)%Q ->
   bar_value x <= 0 /\
   (x <= inject_Z (bar_value x))%Q /\ (inject_Z (bar_value x - 1) < x)%Q).
Proof.
  unfold bar_value, min_100, int_of_float.
  change (inject_Z 100) with 100%Q.
  destruct (PyFloat.ltb x 100) eqn:E100;
    [apply ltb_lt in E100 | apply ltb_ge in E100].
  - destruct (PyFloat.ltb x 0) eqn:E0;
      [apply ltb_lt in E0 | apply ltb_ge in E0].
    + assert (Hc : Qceiling x <= 0).
      { change 0 with (Qceiling (inject_Z 0)).
        apply Qceiling_resp_le. now apply Qlt_le_weak. }
      split; [lia|]. split; [intros H; exfalso; lra|].
      split; [intros H; exfalso; lra|].
      intros _. split; [exact Hc|].
      split; [apply Qle_ceiling | apply Qceiling_lt].
    + pose proof (Qfloor_below_bound x 100 E100) as Hf.
      pose proof (Qfloor_nonneg x E0) as Hn.
      split; [lia|]. split; [intros H; exfalso; lra|].
      split; [|intros H; exfalso; lra].
      intros _ _. split; [lia|].
      split; [apply Qfloor_le | apply Qlt_floor].
  - cbn. split; [lia|]. split; [reflexivity|].
    split; intros H; [intros H'|]; exfalso; lra.
Qed.

Lemma bar_value_in_range_witness :
  0 <= bar_value (995 # 10) <= 99 /\
  (inject_Z (bar_value (995 # 10)) <= 995 # 10)%Q /\
  (995 # 10 < inject_Z (bar_value (995 # 10) + 1))%Q.
Proof.
  apply (proj1 (proj2 (proj2 (bar_value_in_range (995 # 10))))).
  - discriminate.
  - reflexivity.
Defined.

(** ** One decimal *)

Lemma round_half_even_nonneg q :
  (0 <= q)%Q -> 0 <= PyFloat.round_half_even q.
Proof.
  intros H. pose proof (Qfloor_nonneg q H) as Hf.
  unfold PyFloat.round_half_even.
  destruct (q - inject_Z (Qfloor q) ?= 1 # 2)%Q;
    [destruct (Z.even (Qfloor q))| |]; lia.
Qed.

Lemma str_of_digit d :
  0 <= d <= 9 ->
  PyStr.str d = String (ascii_of_nat (48 + Z.to_nat d)) EmptyString.
Proof.
  intros H.
  assert (Hd : d = 0 \/ d = 1 \/ d = 2 \/ d = 3 \/ d = 4 \/ d = 5 \/
               d = 6 \/ d = 7 \/ d = 8 \/ d = 9) by lia.
  repeat (destruct Hd as [->|Hd]; [reflexivity|]). now subst d.
Qed.

(** [f"{q:.1f}"] prints a minus sign for a negative [q], then an integer
    part, a point and exactly one digit; the number printed is a tenth
    nearest to the magnitude of [q], at most one twentieth away. *)
Lemma format_1f_nearest_tenth q :
  exists i d : Z,
    0 <= i /\ 0 <= d <= 9 /\
    PyFloat.format_1f q =
      ((if PyFloat.ltb q 0%Q then "-" else EmptyString) ++
       PyStr.str i ++ "." ++
       String (ascii_of_nat (48 + Z.to_nat d)) EmptyString)%string /\
    (inject_Z i + inject_Z d / inject_Z 10 - (1 # 20) <= Qabs q)%Q /\
    (Qabs q <= inject_Z i + inject_Z d / inject_Z 10 + (1 # 20))%Q.
Proof.
  set (m := PyFloat.round_half_even (Qabs q * inject_Z 10)%Q).
  assert (Hm : 0 <= m).
  { apply round_half_even_nonneg.
    apply Qmult_le_0_compat; [apply Qabs_nonneg|discriminate]. }
  pose proof (Z.div_mod m 10 ltac:(lia)) as Hdm.
  pose proof (Z.mod_pos_bound m 10 ltac:(lia)) as Hd.
  pose proof (Z.div_pos m 10 Hm ltac:(lia)) as Hi.
  exists (m / 10), (m mod 10).
  split; [exact Hi|]. split; [lia|]. split.
  - unfold PyFloat.format_1f. fold m.
    now rewrite (str_of_digit (m mod 10)) by lia.
  - destruct (round_half_even_nearest (Qabs q * inject_Z 10)%Q) as [Hlo Hhi].
    fold m in Hlo, Hhi.
    assert (Hq : (inject_Z m ==
                  inject_Z 10 * inject_Z (m / 10) + inject_Z (m mod 10))%Q)
      by (rewrite <- inject_Z_mult, <- inject_Z_plus, <- Hdm; reflexivity).
    rewrite Hq in Hlo, Hhi.
    change (inject_Z 10) with 10%Q in *.
    set (a := Qabs q) in *. set (qi := inject_Z (m / 10)) in *.
    set (qd := inject_Z (m mod 10)) in *.
    assert (Htenth : (qd / 10 == qd * (1 # 10))%Q) by reflexivity.
    rewrite Htenth. split; lra.
Qed.

(** X15. The text of [human_readable_bytes] for a number is a minus sign
    if the scaled value is negative, an integer part, a point, exactly one
    digit, a blank and the unit; the number printed is a tenth nearest to
    the magnitude of the value divided by [1024 ** i], at most one
    twentieth away, [i] being the index of the unit printed. *)
Theorem humanize_prints_nearest_tenth n :
  exists (u : nat) (v : Q) (i d : Z),
    (u <= 4)%nat /\ (v == n / scale u)%Q /\
    0 <= i /\ 0 <= d <= 9 /\
    human_readable_bytes (Some n) =
      (((if PyFloat.ltb v 0%Q then "-" else EmptyString) ++
        PyStr.str i ++ "." ++
        String (ascii_of_nat (48 + Z.to_nat d)) EmptyString) ++
       " " ++ nth u units EmptyString)%string /\
    (inject_Z i + inject_Z d / inject_Z 10 - (1 # 20) <= Qabs v)%Q /\
    (Qabs v <= inject_Z i + inject_Z d / inject_Z 10 + (1 # 20))%Q.
Proof.
  unfold human_readable_bytes.
  destruct (hrb_while_steps (List.length units - 1) n 0)
    as (u & v & Hr & Hu & Hv & _ & _).
  destruct (format_1f_nearest_tenth v) as (i & d & Hi & Hd & Ht & Hlo & Hhi).
  exists u, v, i, d. rewrite Hr, Ht. cbn in Hu.
  repeat split; try assumption; lia.
Qed.

(** ** The partition list *)





(** ** Decimal numerals *)

(** Evaluate [digit_value] at the literal character under scrutiny. *)
Ltac eval_digit :=
  match goal with
  | [ |- context [digit_value ?c] ] =>
      let v := eval vm_compute in (digit_value c) in
      change (digit_value c) with v; cbv beta iota
  end.

Lemma parse_digits_acc d acc b :
  d <> Decimal.Nil \/ b = true ->
  parse_digits (NilEmpty.string_of_uint d) (Z.pos acc) b =
  Some (Z.pos (Pos.of_uint_acc d acc)).
Proof.
  revert acc b.
  induction d as [|d IH|d IH|d IH|d IH|d IH|d IH|d IH|d IH|d IH|d IH];
    intros acc b Hb.
  1: destruct Hb as [Hb|Hb]; [congruence|now subst b].
  all: cbn [NilEmpty.string_of_uint parse_digits Pos.of_uint_acc].
  all: eval_digit.
  all: rewrite <- (IH _ true) by now right.
  all: f_equal; lia.
Qed.

Lemma parse_digits_uint d b :
  d <> Decimal.Nil \/ b = true ->
  parse_digits (NilEmpty.string_of_uint d) 0 b = Some (Z.of_uint d).
Proof.
  unfold Z.of_uint. revert b.
  induction d as [|d IH|d IH|d IH|d IH|d IH|d IH|d IH|d IH|d IH|d IH];
    intros b Hb.
  1: destruct Hb as [Hb|Hb]; [congruence|now subst b].
  1: { cbn [NilEmpty.string_of_uint parse_digits Pos.of_uint]. eval_digit.
       apply (IH true). now right. }
  all: cbn [NilEmpty.string_of_uint parse_digits Pos.of_uint].
  all: eval_digit.
  all: cbn [Z.of_N].
  all: rewrite <- (parse_digits_acc d _ true) by now right.
  all: reflexivity.
Qed.

Lemma parse_digits_numeral d :
  parse_digits (NilZero.string_of_uint d) 0 false = Some (Z.of_uint d).
Proof.
  destruct d; try (apply parse_digits_uint; left; discriminate).
  reflexivity.
Qed.

Lemma numeral_chars_uint d :
  every numeral_char (NilEmpty.string_of_uint d) = true.
Proof. induction d; cbn; try assumption; reflexivity. Qed.

Lemma str_numeral_chars n : every numeral_char (PyStr.str n) = true.
Proof.
  unfold PyStr.str, NilZero.string_of_int, NilZero.string_of_uint.
  destruct (Z.to_int n) as [d|d]; cbn [every];
    destruct d; try reflexivity; apply numeral_chars_uint.
Qed.

Lemma every_weaken (f g : ascii -> bool) s :
  (forall c, f c = true -> g c = true) ->
  every f s = true -> every g s = true.
Proof.
  intros Himp. induction s as [|c s IH]; cbn; [reflexivity|].
  rewrite !andb_true_iff. intros [Hc Hs]. split; [now apply Himp|now apply IH].
Qed.

Lemma numeral_char_cases c :
  numeral_char c = true ->
  PyStr.isspace c = false /\ Ascii.eqb c "P" = false /\
  Ascii.eqb c ")" = false /\ Ascii.eqb c "+" = false.
Proof.
  destruct c as [[] [] [] [] [] [] [] []]; cbn; intros H;
    try discriminate H; repeat split.
Qed.

Lemma rstrip_no_space s :
  every (fun c => negb (PyStr.isspace c)) s = true -> PyStr.rstrip s = s.
Proof.
  induction s as [|c s IH]; cbn [every PyStr.rstrip]; [reflexivity|].
  rewrite andb_true_iff, negb_true_iff. intros [Hc Hs].
  rewrite (IH Hs), Hc. destruct s; reflexivity.
Qed.

Lemma strip_blank_str n : PyStr.strip (String " " (PyStr.str n)) = PyStr.str n.
Proof.
  assert (Hns : every (fun c => negb (PyStr.isspace c)) (PyStr.str n) = true).
  { apply (every_weaken numeral_char); [|apply str_numeral_chars].
    intros c Hc. apply numeral_char_cases in Hc. now rewrite (proj1 Hc). }
  unfold PyStr.strip. cbn [PyStr.lstrip].
  change (PyStr.isspace " ") with true. cbv iota.
  destruct (PyStr.str n) as [|c s] eqn:E; [reflexivity|].
  cbn [PyStr.lstrip]. cbn [every] in Hns.
  apply andb_true_iff in Hns as [Hc Hs]. apply negb_true_iff in Hc.
  rewrite Hc. apply rstrip_no_space. cbn [every].
  now rewrite Hc, Hs.
Qed.

(** [int(" " + str(n))] is [n]. *)
Lemma int_of_blank_str n : int_of_str (String " " (PyStr.str n)) = Some n.
Proof.
  unfold int_of_str. rewrite strip_blank_str.
  rewrite <- (DecimalZ.of_to n) at 2.
  unfold PyStr.str, NilZero.string_of_int.
  destruct (Z.to_int n) as [d|d]; cbn [Z.of_int].
  - rewrite <- parse_digits_numeral.
    destruct d as [|d|d|d|d|d|d|d|d|d|d]; try reflexivity.
  - destruct d as [|d|d|d|d|d|d|d|d|d|d];
      cbn [NilZero.string_of_uint]; cbv iota;
      rewrite ?parse_digits_uint by (left; discriminate); reflexivity.
Qed.

(** ** Splitting a label *)

Lemma split_from_nonempty sep s k : split_from sep s k <> [].
Proof.
  revert k. induction s as [|c s IH]; intros k; cbn [split_from];
    [discriminate|].
  destruct k as [|k]; [|apply IH].
  destruct (prefix sep (String c s)); [discriminate|].
  destruct (split_from sep s 0); discriminate.
Qed.

Lemma split_from_cons sep c s :
  prefix sep (String c s) = false ->
  exists part parts,
    split_from sep s 0 = part :: parts /\
    split_from sep (String c s) 0 = String c part :: parts.
Proof.
  intros Hp. cbn [split_from]. rewrite Hp.
  destruct (split_from sep s 0) as [|part parts] eqn:E.
  - exfalso. exact (split_from_nonempty sep s 0 E).
  - now exists part, parts.
Qed.

Lemma prefix_first_char sep c c' s :
  Ascii.eqb c c' = false -> prefix (String c' sep) (String c s) = false.
Proof.
  intros Hne. cbn. destruct (ascii_dec c' c) as [->|_]; [|reflexivity].
  now rewrite Ascii.eqb_refl in Hne.
Qed.

(** A stretch free of the separator's first character joins the part that
    follows it. *)
Lemma split_from_clear c' sep a s :
  every (fun c => negb (Ascii.eqb c c')) a = true ->
  exists part parts,
    split_from (String c' sep) s 0 = part :: parts /\
    split_from (String c' sep) (a ++ s) 0 = (a ++ part)%string :: parts.
Proof.
  induction a as [|c a IH]; cbn [every append]; intros H.
  - destruct (split_from (String c' sep) s 0) as [|part parts] eqn:E.
    + exfalso. exact (split_from_nonempty _ _ _ E).
    + now exists part, parts.
  - apply andb_true_iff in H as [Hc Ha]. apply negb_true_iff in Hc.
    destruct (IH Ha) as (part & parts & Hs & Has).
    exists part, parts. split; [exact Hs|].
    destruct (split_from_cons (String c' sep) c (a ++ s)
                (prefix_first_char sep c c' _ Hc))
      as (p' & ps' & E1 & E2).
    rewrite E2. rewrite Has in E1. now injection E1 as <- <-.
Qed.

Lemma string_app_empty (s : string) : (s ++ EmptyString)%string = s.
Proof. induction s as [|c s IH]; cbn; [reflexivity|now rewrite IH]. Qed.

Lemma split_paren_first a rest :
  every (fun c => negb (Ascii.eqb c ")")) a = true ->
  exists parts, str_split ")" (a ++ String ")" rest) = a :: parts.
Proof.
  intros H. unfold str_split.
  destruct (split_from_clear ")" EmptyString a (String ")" rest) H)
    as (part & parts & Hs & Has).
  rewrite Has. cbn [split_from] in Hs.
  replace (prefix ")" (String ")" rest)) with true in Hs
    by (symmetry; apply prefix_spec; now exists rest).
  injection Hs as <- <-.
  rewrite string_app_empty. eexists. reflexivity.
Qed.

Lemma split_after_PID rest :
  split_from "PID" (String "P" (String "I" (String "D" rest))) 0 =
  EmptyString :: split_from "PID" rest 0.
Proof.
  cbn [split_from]. replace (prefix "PID" _) with true; [reflexivity|].
  symmetry. apply prefix_spec. now exists rest.
Qed.

(** No occurrence of "PID" starts inside a name that holds none when a
    blank follows the name. *)
Lemma prefix_PID_in_name c n t :
  PyStr.contains "PID" (String c n) = false ->
  prefix "PID" (String c n ++ String " " t) = false.
Proof.
  intros H. cbn [PyStr.contains] in H. apply orb_false_iff in H as [Hp _].
  destruct (prefix "PID" (String c n ++ String " " t)) eqn:E; [|reflexivity].
  apply prefix_spec in E as [b Hb].
  assert (Hpre : prefix "PID" (String c n) = true); [|congruence].
  apply prefix_spec.
  destruct n as [|c2 [|c3 n3]]; cbn in Hb; try discriminate Hb.
  injection Hb as -> -> -> _. now exists n3.
Qed.

Lemma contains_tail sub c s :
  PyStr.contains sub (String c s) = false -> PyStr.contains sub s = false.
Proof.
  cbn [PyStr.contains]. intros H. now apply orb_false_iff in H as [_ H].
Qed.

Lemma split_name name t :
  PyStr.contains "PID" name = false ->
  exists part parts,
    split_from "PID" (String " " t) 0 = part :: parts /\
    split_from "PID" (name ++ String " " t) 0 = (name ++ part)%string :: parts.
Proof.
  induction name as [|c n IH]; intros H.
  - destruct (split_from "PID" (String " " t) 0) as [|part parts] eqn:E.
    + exfalso. exact (split_from_nonempty _ _ _ E).
    + now exists part, parts.
  - destruct (IH (contains_tail _ _ _ H)) as (part & parts & Hs & Hn).
    exists part, parts. split; [exact Hs|].
    destruct (split_from_cons "PID" c (n ++ String " " t)
                (prefix_PID_in_name c n t H)) as (p' & ps' & E1 & E2).
    cbn [append]. rewrite E2. rewrite Hn in E1. now injection E1 as <- <-.
Qed.

Lemma every_app test (a b : string) :
  every test (a ++ b) = every test a && every test b.
Proof.
  induction a as [|c a IH]; cbn; [reflexivity|].
  now rewrite IH, andb_assoc.
Qed.

Lemma blank_numeral_free n c' :
  Ascii.eqb " " c' = false ->
  (forall c, numeral_char c = true -> Ascii.eqb c c' = false) ->
  every (fun c => negb (Ascii.eqb c c')) (String " " (PyStr.str n)) = true.
Proof.
  intros Hb Hn. cbn [every]. rewrite Hb. cbn [negb andb].
  apply (every_weaken numeral_char); [|apply str_numeral_chars].
  intros c Hc. now rewrite (Hn c Hc).
Qed.

Lemma label_has_marker name y :
  PyStr.contains "(PID" (name ++ " (PID " ++ y) = true.
Proof.
  apply contains_spec. exists (name ++ " ")%string, (String " " y).
  rewrite string_app_assoc. reflexivity.
Qed.

(** The text after the first "PID" of a label whose name holds none. *)
Lemma split_label name y :
  PyStr.contains "PID" name = false ->
  every (fun c => negb (Ascii.eqb c "P")) y = true ->
  str_split "PID" (name ++ " (PID" ++ y) = [(name ++ " (")%string; y].
Proof.
  intros Hname Hy. unfold str_split.
  destruct (split_name name ("(PID" ++ y) Hname)
    as (part & parts & Hs & Hn).
  change (name ++ " (PID" ++ y)%string
    with (name ++ String " " ("(PID" ++ y))%string.
  rewrite Hn. clear Hn.
  destruct (split_from_cons "PID" " " ("(PID" ++ y) eq_refl)
    as (p1 & ps1 & E1 & E2).
  rewrite E2 in Hs. injection Hs as <- <-.
  destruct (split_from_cons "PID" "(" ("PID" ++ y) eq_refl)
    as (p2 & ps2 & E3 & E4).
  change ("(PID" ++ y)%string with (String "(" ("PID" ++ y)) in E1.
  rewrite E4 in E1. injection E1 as <- <-.
  change ("PID" ++ y)%string
    with (String "P" (String "I" (String "D" y))) in E3.
  rewrite split_after_PID in E3. injection E3 as <- <-.
  destruct (split_from_clear "P" "ID" y EmptyString Hy)
    as (p3 & ps3 & E5 & E6).
  cbn in E5. injection E5 as <- <-.
  rewrite !string_app_empty in E6. rewrite E6. reflexivity.
Qed.

(** The label [ProcessItemWidget] builds reads back when the name does
    not contain "PID". *)
Lemma widget_label_reads_back name pid cpu mem :
  PyStr.contains "PID" name = false ->
  clicked_pid (nameLabel (ProcessItemWidget name pid cpu mem)) = Some pid.
Proof.
  intros Hname. unfold ProcessItemWidget. cbn [nameLabel].
  unfold clicked_pid. rewrite label_has_marker.
  assert (Hp : every (fun c => negb (Ascii.eqb c "P"))
                 (String " " (PyStr.str pid) ++ ")") = true).
  { rewrite every_app, blank_numeral_free; [reflexivity|reflexivity|].
    intros c Hc. now apply numeral_char_cases in Hc. }
  change (name ++ " (PID " ++ PyStr.str pid ++ ")")%string
    with (name ++ " (PID" ++ (String " " (PyStr.str pid) ++ ")"))%string.
  rewrite (split_label name _ Hname Hp). cbn [nth_error].
  destruct (split_paren_first (String " " (PyStr.str pid)) EmptyString)
    as [parts Hparts].
  { apply blank_numeral_free; [reflexivity|].
    intros c Hc. now apply numeral_char_cases in Hc. }
  rewrite Hparts. apply int_of_blank_str.
Qed.

(** X17. The rows of the process list stand, in order, for the records
    [update_process_list] selected; their two bars never exceed 100, and
    the label of a row reads back: for a record whose name does not
    contain "PID", a double click on its row hands exactly its PID to
    [psutil.Process]. *)
Theorem rows_read_back text top s ps :
  Forall2 (fun t w =>
             cpuBar w <= 100 /\ memBar w <= 100 /\
             (PyStr.contains "PID" (t_name t) = false ->
              clicked_pid (nameLabel w) = Some (t_pid t)))
          (update_process_list text top s ps)
          (process_rows text top s ps).
Proof.
  unfold process_rows.
  induction (update_process_list text top s ps) as [|t l IH]; cbn [map];
    constructor; [|exact IH].
  split; [apply bar_value_le_100|]. split; [apply bar_value_le_100|].
  apply widget_label_reads_back.
Qed.

Lemma rows_read_back_witness :
  Forall2 (fun t w =>
             cpuBar w <= 100 /\ memBar w <= 100 /\
             (PyStr.contains "PID" (t_name t) = false ->
              clicked_pid (nameLabel w) = Some (t_pid t)))
          (update_process_list "3" 30 "PID" digit_processes)
          (process_rows "3" 30 "PID" digit_processes).
Proof. exact (rows_read_back "3" 30 "PID" digit_processes). Defined.

(** X18. A name can make the label read back another PID: for a process
    named "PID k)..." the text between the first "PID" and the first ")"
    lies inside the name, and a double click on its row hands [k] to
    [psutil.Process] whatever the PID of the process is. *)
Theorem label_misread_by_name k rest pid cpu mem :
  clicked_pid
    (nameLabel
       (ProcessItemWidget ("PID " ++ PyStr.str k ++ ")" ++ rest) pid cpu mem))
  = Some k.
Proof.
  unfold ProcessItemWidget. cbn [nameLabel].
  unfold clicked_pid. rewrite label_has_marker.
  set (tail := (rest ++ " (PID " ++ PyStr.str pid ++ ")")%string).
  assert (Htext :
    (("PID " ++ PyStr.str k ++ ")" ++ rest) ++
     " (PID " ++ PyStr.str pid ++ ")")%string =
    String "P" (String "I" (String "D"
      ((String " " (PyStr.str k) ++ ")") ++ tail)))).
  { unfold tail. cbn [append]. do 4 f_equal.
    now rewrite !string_app_assoc. }
  rewrite Htext. unfold str_split at 1. rewrite split_after_PID.
  cbn [nth_error].
  assert (Hp : every (fun c => negb (Ascii.eqb c "P"))
                 (String " " (PyStr.str k) ++ ")") = true).
  { rewrite every_app, blank_numeral_free; [reflexivity|reflexivity|].
    intros c Hc. now apply numeral_char_cases in Hc. }
  destruct (split_from_clear "P" "ID" _ tail Hp)
    as (part & parts & _ & Hsplit).
  rewrite Hsplit.
  rewrite string_app_assoc.
  destruct (split_paren_first (String " " (PyStr.str k)) part)
    as [ps Hps].
  { apply blank_numeral_free; [reflexivity|].
    intros c Hc. now apply numeral_char_cases in Hc. }
  change (")" ++ part)%string with (String ")" part).
  rewrite Hps. apply int_of_blank_str.
Qed.
